(** * population-data: the frontend's series computations and the
      data-acquisition core, embedded and verified.

    The TypeScript sources embedded here are
    - [frontend/src/components/CombinedChart.tsx] ([combinedData], [popChange]),
    - the population chart component ([change]),
    - the municipality search component ([filteredMunicipalities]),
    - the time slider component ([handleSliderChange]),
    - the type declarations of [types/population] and [types/realestate].

    JavaScript numbers that carry years, head counts and prices are
    embedded as [Z].  The percentages the charts print next to the
    change ([popChangePercent], [priceChange]) divide and format
    floating-point numbers and are left out.

    The cache, the two provider clients and the aggregator live in the
    backend, which is not among the sources; module [Core] models them
    from the specification. *)

From Stdlib Require Import ZArith Lia.
From stdpp Require Import base option list gmap strings sorting.

Local Open Scope Z_scope.

(** ** JavaScript built-ins used by the components *)

Module JS.

(** [Map<K, V>]: iteration follows insertion order; [set] on a key
    that is present replaces the value and keeps the key's position. *)
Section JSMap.
Context {K V : Type} `{EqDecision K}.

Definition Map := list (K * V).

Definition empty : Map := [].

Fixpoint get (k : K) (m : Map) : option V :=
  match m with
  | [] => None
  | (k', v) :: m' => if decide (k' = k) then Some v else get k m'
  end.

Fixpoint set (k : K) (v : V) (m : Map) : Map :=
  match m with
  | [] => [(k, v)]
  | (k', v') :: m' =>
      if decide (k' = k) then (k', v) :: m' else (k', v') :: set k v m'
  end.

Definition keys (m : Map) : list K := m.*1.
Definition values (m : Map) : list V := m.*2.
End JSMap.

Arguments Map : clear implicits.

(** [Array.prototype.sort(compareFn)]: the comparator returns a number,
    negative when its first argument goes first.  The sort is stable. *)
Section Sort.
Context {A : Type} (compareFn : A → A → Z).

Fixpoint insert (x : A) (l : list A) : list A :=
  match l with
  | [] => [x]
  | y :: l' =>
      if bool_decide (compareFn x y ≤ 0) then x :: y :: l'
      else y :: insert x l'
  end.

Definition sort (l : list A) : list A := foldr insert [] l.
End Sort.

(** [arr[i]] for an integer index: [undefined] outside [0 .. length-1]. *)
Definition index {A : Type} (arr : list A) (i : Z) : option A :=
  if bool_decide (0 ≤ i) then arr !! Z.to_nat i else None.

(** [arr.length] *)
Definition length {A : Type} (arr : list A) : Z := Z.of_nat (List.length arr).

(** [arr.slice(0, n)] for a literal [n ≥ 0]. *)
Definition slice0 {A : Type} (n : nat) (arr : list A) : list A := take n arr.

(** A computation that may throw a [TypeError]. *)
Inductive Outcome (A : Type) := Value (a : A) | TypeError.
#[global] Arguments Value {A} a.
#[global] Arguments TypeError {A}.

(** [arr.reduce(callback)] without an initial value: the accumulator
    starts at [arr[0]], the callback runs from index 1 on, and an empty
    array throws. *)
Definition reduce {A : Type} (callback : A → A → A) (arr : list A) : Outcome A :=
  match arr with
  | [] => TypeError
  | x :: rest => Value (foldl callback x rest)
  end.

(** A string is its sequence of UTF-16 code units. *)
Definition String := list N.

Fixpoint startsWith (s sub : String) : bool :=
  match sub, s with
  | [], _ => true
  | _ :: _, [] => false
  | c :: sub', d :: s' => bool_decide (c = d) && startsWith s' sub'
  end.

(** [s.includes(sub)] *)
Fixpoint includes (s sub : String) : bool :=
  startsWith s sub ||
  match s with
  | [] => false
  | _ :: s' => includes s' sub
  end.

(** Code units of a literal whose characters are all below 256. *)
Definition lit (s : string) : String :=
  (λ a, N.of_nat (Ascii.nat_of_ascii a)) <$> String.list_ascii_of_string s.

(** [toLowerCase] restricted to the Basic Latin letters; the full
    Unicode case mapping is a parameter of the search component below. *)
Definition asciiToLowerCase (s : String) : String :=
  (λ c, if bool_decide (65 ≤ c ≤ 90)%N then (c + 32)%N else c) <$> s.

(** Truthiness of a number: of the integers only 0 is falsy. *)
Definition truthy (n : Z) : bool := negb (n =? 0).

(** [arr.find(predicate)]: the first element that satisfies it. *)
Definition find {A : Type} (predicate : A → bool) (arr : list A) : option A :=
  List.find predicate arr.

(** [Math.min(...arr)] and [Math.max(...arr)] of a non-empty array. *)
Definition mathMin (x : Z) (rest : list Z) : Z := foldl Z.min x rest.
Definition mathMax (x : Z) (rest : list Z) : Z := foldl Z.max x rest.

(** An object literal, its properties in the order written; a key
    written twice keeps its last value. *)
Definition Object (A : Type) := list (String * A).

(** The names every object inherits from [Object.prototype]; their
    values are functions or objects, all truthy. *)
Definition objectPrototype : list String :=
  lit <$> [ "constructor"; "hasOwnProperty"; "isPrototypeOf";
            "propertyIsEnumerable"; "toLocaleString"; "toString"; "valueOf";
            "__proto__"; "__defineGetter__"; "__defineSetter__";
            "__lookupGetter__"; "__lookupSetter__" ]%string.

(** What [obj[key]] evaluates to. *)
Inductive Property (A : Type) :=
| Own (a : A)
| Inherited (name : String)
| Undefined.
#[global] Arguments Own {A} a.
#[global] Arguments Inherited {A} name.
#[global] Arguments Undefined {A}.

Definition getProperty {A : Type} (obj : Object A) (key : String) : Property A :=
  match get key (reverse obj) with
  | Some a => Own a
  | None =>
      if bool_decide (key ∈ objectPrototype) then Inherited key else Undefined
  end.

(** The values of the objects embedded here are objects themselves, so
    every property that is found is truthy. *)
Definition truthyProperty {A : Type} (p : Property A) : bool :=
  match p with
  | Own _ | Inherited _ => true
  | Undefined => false
  end.

(** How an awaited request settles. *)
Inductive Settled (A : Type) := Resolved (response : A) | Rejected.
#[global] Arguments Resolved {A} response.
#[global] Arguments Rejected {A}.

End JS.

(** ** [types/population] and [types/realestate] *)

Module Population.
Record YearlyPopulation := { year : Z; population : Z }.

Record MunicipalityTimeSeries := {
  code : JS.String;
  prefecture : JS.String;
  municipality : JS.String;
  data : list YearlyPopulation;
}.

(** The fields carry a prefix: [MunicipalityTimeSeries] above has the
    same three names. *)
Record MunicipalityListItem := {
  item_code : JS.String;
  item_prefecture : JS.String;
  item_municipality : JS.String;
}.

(** The fields carry a prefix for the same reason. *)
Record MunicipalityPopulation := {
  mp_code : JS.String;
  mp_prefecture : JS.String;
  mp_municipality : JS.String;
  mp_population : Z;
}.
End Population.

Module RealEstate.
Record RealEstateYearlyData := {
  year : Z;
  transaction_count : Z;
  avg_unit_price : Z;
  min_unit_price : Z;
  max_unit_price : Z;
}.

Record RealEstateTimeSeries := {
  code : JS.String;
  prefecture : JS.String;
  municipality : JS.String;
  data : list RealEstateYearlyData;
}.
End RealEstate.

(** ** [CombinedChart] *)

Module CombinedChart.

(** The value type of [dataMap]; an absent optional field is [None]. *)
Record Combined := {
  year : Z;
  population : option Z;
  avg_unit_price : option Z;
  transaction_count : option Z;
}.

#[global] Instance Combined_eq_dec : EqDecision Combined.
Proof. solve_decision. Defined.

(** First [forEach]: [dataMap.set(d.year, {year, population})]. *)
Definition addPopulation
    (dataMap : JS.Map Z Combined) (d : Population.YearlyPopulation) :=
  JS.set (Population.year d)
    {| year := Population.year d;
       population := Some (Population.population d);
       avg_unit_price := None;
       transaction_count := None |}
    dataMap.

(** Second [forEach]: spread the existing record (or [{year}]) and
    overwrite the two real-estate fields. *)
Definition addRealEstate
    (dataMap : JS.Map Z Combined) (d : RealEstate.RealEstateYearlyData) :=
  let existing :=
    default {| year := RealEstate.year d; population := None;
               avg_unit_price := None; transaction_count := None |}
            (JS.get (RealEstate.year d) dataMap) in
  JS.set (RealEstate.year d)
    {| year := year existing;
       population := population existing;
       avg_unit_price := Some (RealEstate.avg_unit_price d);
       transaction_count := Some (RealEstate.transaction_count d) |}
    dataMap.

Definition dataMapOf
    (populationData : Population.MunicipalityTimeSeries)
    (realEstateData : option RealEstate.RealEstateTimeSeries)
    : JS.Map Z Combined :=
  let dataMap := foldl addPopulation JS.empty (Population.data populationData) in
  match realEstateData with
  | Some re => foldl addRealEstate dataMap (RealEstate.data re)
  | None => dataMap
  end.

Definition combinedData
    (populationData : Population.MunicipalityTimeSeries)
    (realEstateData : option RealEstate.RealEstateTimeSeries)
    : list Combined :=
  JS.sort (λ a b, year a - year b)
          (JS.values (dataMapOf populationData realEstateData)).

(** Reading [.population] of [undefined] throws. *)
Definition popChange
    (populationData : Population.MunicipalityTimeSeries) : JS.Outcome Z :=
  let data := Population.data populationData in
  let firstPopYear := JS.index data 0 in
  let lastPopYear := JS.index data (JS.length data - 1) in
  match lastPopYear, firstPopYear with
  | Some l, Some f =>
      JS.Value (Population.population l - Population.population f)
  | _, _ => JS.TypeError
  end.

(** [priceChange] without its [changePercent] field, which is a
    formatted floating-point quotient. *)
Record PriceChange := {
  first : RealEstate.RealEstateYearlyData;
  last : RealEstate.RealEstateYearlyData;
  change : Z;
}.

Definition priceChange
    (realEstateData : option RealEstate.RealEstateTimeSeries)
    : JS.Outcome (option PriceChange) :=
  match realEstateData with
  | None => JS.Value None
  | Some re =>
      let data := RealEstate.data re in
      if bool_decide (JS.length data < 2) then JS.Value None
      else
        match JS.index data (JS.length data - 1), JS.index data 0 with
        | Some l, Some f =>
            JS.Value (Some {| first := f; last := l;
                              change := RealEstate.avg_unit_price l
                                        - RealEstate.avg_unit_price f |})
        | _, _ => JS.TypeError
        end
  end.

(** The population-change cell of the data table's row [index]:
    [prevPop && d.population ? d.population - prevPop : null]. *)
Definition popDiff (combinedData : list Combined) (index : nat) (d : Combined)
    : JS.Outcome (option Z) :=
  let prevPop : JS.Outcome (option Z) :=
    if bool_decide (0 < Z.of_nat index) then
      match JS.index combinedData (Z.of_nat index - 1) with
      | Some prev => JS.Value (population prev)
      | None => JS.TypeError
      end
    else JS.Value None in
  match prevPop with
  | JS.TypeError => JS.TypeError
  | JS.Value None => JS.Value None
  | JS.Value (Some prev) =>
      if JS.truthy prev then
        match population d with
        | Some pop => if JS.truthy pop then JS.Value (Some (pop - prev)) else JS.Value None
        | None => JS.Value None
        end
      else JS.Value None
  end.

(** The cells of [combinedData.map((d, index) => ...)]. *)
Definition popDiffs (combinedData : list Combined) : list (JS.Outcome (option Z)) :=
  imap (popDiff combinedData) combinedData.

End CombinedChart.

(** ** [PopulationChart] *)

Module PopulationChart.

Definition change (data : Population.MunicipalityTimeSeries) : JS.Outcome Z :=
  let firstYear := JS.index (Population.data data) 0 in
  let lastYear :=
    JS.index (Population.data data) (JS.length (Population.data data) - 1) in
  match lastYear, firstYear with
  | Some l, Some f =>
      JS.Value (Population.population l - Population.population f)
  | _, _ => JS.TypeError
  end.

(** The change cell of the data table's row [index]:
    [prevPopulation ? d.population - prevPopulation : null]. *)
Definition diff (data : list Population.YearlyPopulation) (index : nat)
    (d : Population.YearlyPopulation) : JS.Outcome (option Z) :=
  let prevPopulation : JS.Outcome (option Z) :=
    if bool_decide (0 < Z.of_nat index) then
      match JS.index data (Z.of_nat index - 1) with
      | Some prev => JS.Value (Some (Population.population prev))
      | None => JS.TypeError
      end
    else JS.Value None in
  match prevPopulation with
  | JS.TypeError => JS.TypeError
  | JS.Value None => JS.Value None
  | JS.Value (Some prev) =>
      if JS.truthy prev then JS.Value (Some (Population.population d - prev))
      else JS.Value None
  end.

(** The cells of [data.data.map((d, index) => ...)]. *)
Definition diffs (data : Population.MunicipalityTimeSeries)
    : list (JS.Outcome (option Z)) :=
  imap (diff (Population.data data)) (Population.data data).

End PopulationChart.

(** ** [MunicipalitySearch] *)

Module MunicipalitySearch.
Section Search.
(** [String.prototype.toLowerCase] *)
Variable toLowerCase : JS.String → JS.String.

(** The predicate handed to [filter]. *)
Definition matches (searchText : JS.String) (m : Population.MunicipalityListItem) : bool :=
  let lower := toLowerCase searchText in
  JS.includes (toLowerCase (Population.item_municipality m)) lower
  || JS.includes (toLowerCase (Population.item_prefecture m)) lower
  || JS.includes (Population.item_code m) searchText.

(** The empty string is the only falsy string. *)
Definition filteredMunicipalities
    (municipalities : list Population.MunicipalityListItem)
    (searchText : JS.String) : list Population.MunicipalityListItem :=
  match searchText with
  | [] => JS.slice0 50 municipalities
  | _ :: _ => JS.slice0 50 (List.filter (matches searchText) municipalities)
  end.
End Search.

(** [null], [undefined] and the empty string are the falsy results and
    inputs here; all three are [None] or [[]]. *)
Definition selectedMunicipality
    (municipalities : list Population.MunicipalityListItem)
    (selectedCode : option JS.String) : option Population.MunicipalityListItem :=
  match selectedCode with
  | None | Some [] => None
  | Some code =>
      JS.find (λ m, bool_decide (Population.item_code m = code)) municipalities
  end.
End MunicipalitySearch.

(** ** [TimeSlider] *)

Module TimeSlider.

(** The year handed to [onYearChange] for the parsed slider [value].
    The component renders nothing for an empty [years], so the handler
    only ever runs on a non-empty array. *)
Definition handleSliderChange (years : list Z) (value : Z) : JS.Outcome Z :=
  JS.reduce
    (λ prev curr,
       if bool_decide (Z.abs (curr - value) < Z.abs (prev - value))
       then curr else prev)
    years.

(** [minYear] and [maxYear]; the component has returned [null] before
    these lines when [years] is empty. *)
Definition minYear (years : list Z) : option Z :=
  match years with
  | [] => None
  | y :: rest => Some (JS.mathMin y rest)
  end.

Definition maxYear (years : list Z) : option Z :=
  match years with
  | [] => None
  | y :: rest => Some (JS.mathMax y rest)
  end.

End TimeSlider.

(** ** [Map] *)

Module Map.

(** Latitude and longitude in ten-thousandths of a degree: the table's
    literals all have four decimals. *)
Record LatLng := { lat : Z; lng : Z }.

Definition MUNICIPALITY_COORDS : JS.Object LatLng :=
[
  (JS.lit "01100", {| lat := 430618; lng := 1413545 |});
  (JS.lit "04100", {| lat := 382682; lng := 1408694 |});
  (JS.lit "11100", {| lat := 358617; lng := 1396455 |});
  (JS.lit "12100", {| lat := 356073; lng := 1401063 |});
  (JS.lit "13101", {| lat := 356940; lng := 1397536 |});
  (JS.lit "13102", {| lat := 356706; lng := 1397727 |});
  (JS.lit "13103", {| lat := 356581; lng := 1397514 |});
  (JS.lit "13104", {| lat := 356938; lng := 1397034 |});
  (JS.lit "13105", {| lat := 357080; lng := 1397522 |});
  (JS.lit "13106", {| lat := 357125; lng := 1397797 |});
  (JS.lit "13107", {| lat := 357108; lng := 1398019 |});
  (JS.lit "13108", {| lat := 356729; lng := 1398171 |});
  (JS.lit "13109", {| lat := 356090; lng := 1397301 |});
  (JS.lit "13110", {| lat := 356414; lng := 1396982 |});
  (JS.lit "13111", {| lat := 355613; lng := 1397160 |});
  (JS.lit "13112", {| lat := 356461; lng := 1396532 |});
  (JS.lit "13113", {| lat := 356639; lng := 1396980 |});
  (JS.lit "13114", {| lat := 357078; lng := 1396638 |});
  (JS.lit "13115", {| lat := 356995; lng := 1396364 |});
  (JS.lit "13116", {| lat := 357295; lng := 1397109 |});
  (JS.lit "13117", {| lat := 357528; lng := 1397376 |});
  (JS.lit "13118", {| lat := 357365; lng := 1397833 |});
  (JS.lit "13119", {| lat := 357514; lng := 1397094 |});
  (JS.lit "13120", {| lat := 357355; lng := 1396527 |});
  (JS.lit "13121", {| lat := 357748; lng := 1398046 |});
  (JS.lit "13122", {| lat := 357436; lng := 1398477 |});
  (JS.lit "13123", {| lat := 357065; lng := 1398682 |});
  (JS.lit "14100", {| lat := 354437; lng := 1396380 |});
  (JS.lit "14130", {| lat := 355309; lng := 1397029 |});
  (JS.lit "23100", {| lat := 351815; lng := 1369066 |});
  (JS.lit "26100", {| lat := 350116; lng := 1357681 |});
  (JS.lit "27100", {| lat := 346937; lng := 1355023 |});
  (JS.lit "28100", {| lat := 346901; lng := 1351956 |});
  (JS.lit "33100", {| lat := 346551; lng := 1339195 |});
  (JS.lit "34100", {| lat := 343853; lng := 1324553 |});
  (JS.lit "40100", {| lat := 338835; lng := 1308752 |});
  (JS.lit "40130", {| lat := 335904; lng := 1304017 |})
].

Definition getColorByPopulation (population : Z) : JS.String :=
  if bool_decide (3000000 ≤ population) then JS.lit "#d73027"
  else if bool_decide (2000000 ≤ population) then JS.lit "#f46d43"
  else if bool_decide (1000000 ≤ population) then JS.lit "#fdae61"
  else if bool_decide (500000 ≤ population) then JS.lit "#fee08b"
  else if bool_decide (200000 ≤ population) then JS.lit "#d9ef8b"
  else if bool_decide (100000 ≤ population) then JS.lit "#a6d96a"
  else JS.lit "#66bd63".

Definition getMarkerScale (population : Z) : Z :=
  if bool_decide (3000000 ≤ population) then 20
  else if bool_decide (2000000 ≤ population) then 16
  else if bool_decide (1000000 ≤ population) then 12
  else if bool_decide (500000 ≤ population) then 10
  else if bool_decide (200000 ≤ population) then 8
  else 6.

(** [{...item, position, color, scale}] *)
Record Marker := {
  item : Population.MunicipalityPopulation;
  position : JS.Property LatLng;
  color : JS.String;
  scale : Z;
}.

Definition hasCoords (item : Population.MunicipalityPopulation) : bool :=
  JS.truthyProperty (JS.getProperty MUNICIPALITY_COORDS (Population.mp_code item)).

Definition markers (populationData : list Population.MunicipalityPopulation)
    : list Marker :=
  (λ item,
     {| item := item;
        position := JS.getProperty MUNICIPALITY_COORDS (Population.mp_code item);
        color := getColorByPopulation (Population.mp_population item);
        scale := getMarkerScale (Population.mp_population item) |})
  <$> List.filter hasCoords populationData.

(** The [selectedMunicipality] state after a click on [marker]. *)
Definition handleMarkerClick (marker : Marker)
    : option Population.MunicipalityPopulation :=
  Some (item marker).

Definition handleInfoWindowClose : option Population.MunicipalityPopulation :=
  None.

(** The guard in front of [<InfoWindow>]. *)
Definition infoWindowShown
    (selectedMunicipality : option Population.MunicipalityPopulation) : bool :=
  match selectedMunicipality with
  | None => false
  | Some m => hasCoords m
  end.

End Map.

(** ** The three hooks

    An asynchronous function is embedded as the state change its
    synchronous prefix makes when it is called ([...Started]) and the
    state change its continuation makes once the awaited request has
    settled ([...Settled]). *)

(** The messages the hooks put into [error]: four distinct, non-empty
    string constants, each naming the request that failed. *)
Inductive ErrorMessage :=
| YearsFailed
| PopulationFailed
| TimeSeriesFailed
| RealEstateFailed.

Module usePopulation.

Record State := {
  availableYears : list Z;
  selectedYear : option Z;
  populationData : list Population.MunicipalityPopulation;
  loading : bool;
  error : option ErrorMessage;
}.

Definition initial : State :=
  {| availableYears := []; selectedYear := None; populationData := [];
     loading := false; error := None |}.

Definition fetchYearsSettled (outcome : JS.Settled (list Z)) (s : State) : State :=
  match outcome with
  | JS.Resolved years =>
      {| availableYears := years;
         selectedYear :=
           match years with
           | y :: _ => Some y
           | [] => selectedYear s
           end;
         populationData := populationData s;
         loading := loading s; error := error s |}
  | JS.Rejected =>
      {| availableYears := availableYears s; selectedYear := selectedYear s;
         populationData := populationData s;
         loading := loading s; error := Some YearsFailed |}
  end.

Definition setSelectedYear (year : Z) (s : State) : State :=
  {| availableYears := availableYears s; selectedYear := Some year;
     populationData := populationData s;
     loading := loading s; error := error s |}.

Definition fetchPopulationStarted (s : State) : State :=
  {| availableYears := availableYears s; selectedYear := selectedYear s;
     populationData := populationData s;
     loading := true; error := None |}.

Definition fetchPopulationSettled
    (outcome : JS.Settled (list Population.MunicipalityPopulation)) (s : State)
    : State :=
  match outcome with
  | JS.Resolved data =>
      {| availableYears := availableYears s; selectedYear := selectedYear s;
         populationData := data;
         loading := false; error := error s |}
  | JS.Rejected =>
      {| availableYears := availableYears s; selectedYear := selectedYear s;
         populationData := populationData s;
         loading := false; error := Some PopulationFailed |}
  end.

End usePopulation.

Module useMunicipalityDetail.

Record State := {
  municipalities : list Population.MunicipalityListItem;
  selectedCode : option JS.String;
  timeSeries : option Population.MunicipalityTimeSeries;
  loading : bool;
  error : option ErrorMessage;
}.

Definition initial : State :=
  {| municipalities := []; selectedCode := None; timeSeries := None;
     loading := false; error := None |}.

(** A failure is only logged. *)
Definition fetchMunicipalitiesSettled
    (outcome : JS.Settled (list Population.MunicipalityListItem)) (s : State)
    : State :=
  match outcome with
  | JS.Resolved ms =>
      {| municipalities := ms; selectedCode := selectedCode s;
         timeSeries := timeSeries s; loading := loading s; error := error s |}
  | JS.Rejected => s
  end.

Definition fetchTimeSeriesStarted (s : State) : State :=
  {| municipalities := municipalities s; selectedCode := selectedCode s;
     timeSeries := timeSeries s; loading := true; error := None |}.

Definition fetchTimeSeriesSettled (code : JS.String)
    (outcome : JS.Settled Population.MunicipalityTimeSeries) (s : State) : State :=
  match outcome with
  | JS.Resolved response =>
      {| municipalities := municipalities s; selectedCode := Some code;
         timeSeries := Some response; loading := false; error := error s |}
  | JS.Rejected =>
      {| municipalities := municipalities s; selectedCode := selectedCode s;
         timeSeries := timeSeries s; loading := false;
         error := Some TimeSeriesFailed |}
  end.

Definition clearSelection (s : State) : State :=
  {| municipalities := municipalities s; selectedCode := None;
     timeSeries := None; loading := loading s; error := error s |}.

End useMunicipalityDetail.

Module useRealEstate.

Record State := {
  realEstateData : option RealEstate.RealEstateTimeSeries;
  loading : bool;
  error : option ErrorMessage;
}.

Definition initial : State :=
  {| realEstateData := None; loading := false; error := None |}.

Definition fetchRealEstateTimeSeriesStarted (s : State) : State :=
  {| realEstateData := realEstateData s; loading := true; error := None |}.

Definition fetchRealEstateTimeSeriesSettled
    (outcome : JS.Settled RealEstate.RealEstateTimeSeries) (s : State) : State :=
  match outcome with
  | JS.Resolved response =>
      {| realEstateData := Some response; loading := false; error := error s |}
  | JS.Rejected =>
      {| realEstateData := None; loading := false;
         error := Some RealEstateFailed |}
  end.

Definition clearRealEstateData (s : State) : State :=
  {| realEstateData := None; loading := loading s; error := error s |}.

End useRealEstate.

(** ** [App] *)

Module App.

(** What a legend label says of the head count: so many people or more
    (ijou), or fewer than so many (miman). *)
Inductive Band := AtLeast (people : Z) | Below (people : Z).

(** The legend's entries in the order they are listed: colour swatch and
    label (3, 2 and 1 million, 500, 200 and 100 thousand or more; fewer
    than 100 thousand). *)
Definition legend : list (JS.String * Band) :=
  [ (JS.lit "#d73027", AtLeast 3000000);
    (JS.lit "#f46d43", AtLeast 2000000);
    (JS.lit "#fdae61", AtLeast 1000000);
    (JS.lit "#fee08b", AtLeast 500000);
    (JS.lit "#d9ef8b", AtLeast 200000);
    (JS.lit "#a6d96a", AtLeast 100000);
    (JS.lit "#66bd63", Below 100000) ].

Record State := {
  population : usePopulation.State;
  detail : useMunicipalityDetail.State;
  realEstate : useRealEstate.State;
}.

Definition initial : State :=
  {| population := usePopulation.initial;
     detail := useMunicipalityDetail.initial;
     realEstate := useRealEstate.initial |}.

(** What can happen to the mounted application: a request settles, or
    the user acts on a control. *)
Inductive Event :=
| YearsSettled (outcome : JS.Settled (list Z))
| PopulationSettled (outcome : JS.Settled (list Population.MunicipalityPopulation))
| MunicipalitiesSettled (outcome : JS.Settled (list Population.MunicipalityListItem))
| TimeSeriesSettled (code : JS.String)
    (outcome : JS.Settled Population.MunicipalityTimeSeries)
| RealEstateSettled (outcome : JS.Settled RealEstate.RealEstateTimeSeries)
| SliderMoved (value : Z)
| TickClicked (index : nat)
| SearchSelected (code : JS.String)
| ChartClosed.

Definition withPopulation (p : usePopulation.State) (s : State) : State :=
  {| population := p; detail := detail s; realEstate := realEstate s |}.

Definition withDetail (d : useMunicipalityDetail.State) (s : State) : State :=
  {| population := population s; detail := d; realEstate := realEstate s |}.

Definition withRealEstate (r : useRealEstate.State) (s : State) : State :=
  {| population := population s; detail := detail s; realEstate := r |}.

(** [handleClearSelection] *)
Definition handleClearSelection (s : State) : State :=
  {| population := population s;
     detail := useMunicipalityDetail.clearSelection (detail s);
     realEstate := useRealEstate.clearRealEstateData (realEstate s) |}.

(** The state changes an event makes by itself.  The slider and the tick
    buttons exist only for a non-empty [availableYears] and are disabled
    while the population loads; a tick button exists per listed year. *)
Definition handle (e : Event) (s : State) : State :=
  match e with
  | YearsSettled outcome =>
      withPopulation (usePopulation.fetchYearsSettled outcome (population s)) s
  | PopulationSettled outcome =>
      withPopulation (usePopulation.fetchPopulationSettled outcome (population s)) s
  | MunicipalitiesSettled outcome =>
      withDetail (useMunicipalityDetail.fetchMunicipalitiesSettled outcome (detail s)) s
  | TimeSeriesSettled code outcome =>
      withDetail (useMunicipalityDetail.fetchTimeSeriesSettled code outcome (detail s)) s
  | RealEstateSettled outcome =>
      withRealEstate
        (useRealEstate.fetchRealEstateTimeSeriesSettled outcome (realEstate s)) s
  | SliderMoved value =>
      if usePopulation.loading (population s) then s
      else
        match TimeSlider.handleSliderChange
                (usePopulation.availableYears (population s)) value with
        | JS.Value closestYear =>
            withPopulation (usePopulation.setSelectedYear closestYear (population s)) s
        | JS.TypeError => s
        end
  | TickClicked index =>
      if usePopulation.loading (population s) then s
      else
        match usePopulation.availableYears (population s) !! index with
        | Some year =>
            withPopulation (usePopulation.setSelectedYear year (population s)) s
        | None => s
        end
  | SearchSelected code =>
      withDetail (useMunicipalityDetail.fetchTimeSeriesStarted (detail s)) s
  | ChartClosed => handleClearSelection s
  end.

(** The two effects, run after a render whose [selectedYear] or
    [selectedCode] differs from the previous render's: a year that is
    not [null] starts [fetchPopulation], a code that is truthy starts
    [fetchRealEstateTimeSeries]. *)
Definition runEffects (prev next : State) : State :=
  let p := population next in
  let p' :=
    if bool_decide (usePopulation.selectedYear p
                    = usePopulation.selectedYear (population prev)) then p
    else
      match usePopulation.selectedYear p with
      | Some _ => usePopulation.fetchPopulationStarted p
      | None => p
      end in
  let r := realEstate next in
  let r' :=
    if bool_decide (useMunicipalityDetail.selectedCode (detail next)
                    = useMunicipalityDetail.selectedCode (detail prev)) then r
    else
      match useMunicipalityDetail.selectedCode (detail next) with
      | Some (_ :: _) => useRealEstate.fetchRealEstateTimeSeriesStarted r
      | Some [] | None => r
      end in
  {| population := p'; detail := detail next; realEstate := r' |}.

(** One event, rendered, and the effects of that render; every event is
    rendered before the next one arrives. *)
Definition step (s : State) (e : Event) : State := runEffects s (handle e s).

Definition run (events : list Event) (s : State) : State := foldl step s events.

(** The two series handed to [<CombinedChart>], which is rendered only
    for a truthy [timeSeries]. *)
Definition chartProps (s : State)
    : option (Population.MunicipalityTimeSeries
              * option RealEstate.RealEstateTimeSeries) :=
  match useMunicipalityDetail.timeSeries (detail s) with
  | Some ts => Some (ts, useRealEstate.realEstateData (realEstate s))
  | None => None
  end.

End App.

(** ** The data-acquisition core

    The backend that implements the cache, the two provider clients and
    the aggregator is not among the sources embedded above; only the
    frontend's declarations of its wire types are ([RealEstateSummary],
    whose three price fields are [number | null], and
    [RealEstateTransaction]).  Every definition of this module is
    modelled from the specification's sections 3, 4 and 7. *)

Module Core.

(** *** Data model (section 3) *)

Definition MunicipalityCode := string.

(** Modelled from the spec: the credential availability of section 3,
    resolved once and read-only afterwards. *)
Record CredentialAvailability := {
  censusKeyPresent : bool;
  realEstateKeyPresent : bool;
}.

(** Modelled from the spec: the population record of section 3; the
    fields carry a prefix to keep them apart from the summary's. *)
Record PopulationRecord := {
  pr_code : MunicipalityCode;
  pr_prefectureName : string;
  pr_municipalityName : string;
  pr_year : Z;
  pr_population : Z;
}.

(** Modelled from the spec: the raw transaction of section 3;
    [yearField] is the provider-supplied year of section 4.5. *)
Record RealEstateTransaction := {
  prefectureName : string;
  municipalityName : string;
  district : option string;
  tradeDate : option string;
  tradePrice : option Z;
  unitPrice : option Z;
  area : option Z;
  buildingYear : option string;
  structure : option string;
  use : option string;
  cityPlanning : option string;
  priceClassification : option string;
  yearField : option Z;
}.

(** Modelled from the spec: the yearly summary of section 3, its three
    price fields optional. *)
Record RealEstateYearlySummary := {
  code : MunicipalityCode;
  year : Z;
  transactionCount : Z;
  avgUnitPrice : option Z;
  minUnitPrice : option Z;
  maxUnitPrice : option Z;
}.

Definition Payload := list Byte.byte.

(** Modelled from the spec: the cache key of section 4.2, which is
    missing from the sources.  Every parameter that affects the result
    is kept verbatim, so distinct requests have distinct keys. *)
Inductive Key :=
| CensusKey (tableId : string) (year : Z)
| RealEstateKey (code : MunicipalityCode) (year : Z).

#[global] Instance Key_eq_dec : EqDecision Key.
Proof. solve_decision. Defined.

#[global] Instance Key_countable : Countable Key.
Proof.
  refine (inj_countable'
    (λ k, match k with
          | CensusKey t y => inl (t, y)
          | RealEstateKey c y => inr (c, y)
          end)
    (λ s, match s with
          | inl (t, y) => CensusKey t y
          | inr (c, y) => RealEstateKey c y
          end) _).
  by intros [].
Defined.

(** Modelled from the spec: the cache entry of section 3. *)
Record CacheEntry := {
  key : Key;
  payload : Payload;
  storedAt : nat;
}.

(** *** ResponseCache (section 4.2) *)

(** Modelled from the spec: what a cache file holds, a whole entry or
    bytes that do not parse as one (section 4.2's corrupt entry). *)
Inductive DiskFile :=
| Entry (e : CacheEntry)
| Corrupt (raw : Payload).

(** Modelled from the spec: the cache directory, and whether it
    currently accepts writes (section 4.2's write failure). *)
Record Disk := {
  files : gmap Key DiskFile;
  writable : bool;
}.

Inductive GetResult := Found (p : Payload) | NotFound.
Inductive PutResult := Success | WriteFailure.

(** Modelled from the spec: [ResponseCache.get], missing from the
    sources.  A corrupt entry reads as a miss. *)
Definition get (k : Key) (d : Disk) : GetResult :=
  match files d !! k with
  | Some (Entry e) => Found (payload e)
  | Some (Corrupt _) | None => NotFound
  end.

(** Modelled from the spec: [ResponseCache.put], missing from the
    sources.  The write replaces the entry as a whole or not at all. *)
Definition put (k : Key) (p : Payload) (now : nat) (d : Disk) : PutResult * Disk :=
  if writable d then
    (Success,
     {| files := <[k := Entry {| key := k; payload := p; storedAt := now |}]> (files d);
        writable := writable d |})
  else (WriteFailure, d).

(** The cache directory before anything was written. *)
Definition emptyDisk (w : bool) : Disk := {| files := ∅; writable := w |}.

(** A run of [put] calls, [(key, payload, time)] each, results dropped. *)
Definition putAll (ops : list (Key * Payload * nat)) (d : Disk) : Disk :=
  foldl (λ d op, (put op.1.1 op.1.2 op.2 d).2) d ops.

(** *** The providers and the process state *)

(** Modelled from the spec: what an upstream request comes back with
    (section 7's unavailable provider). *)
Inductive Response :=
| HttpOk (body : Payload)
| HttpError (status : Z)
| NetworkFailure
| Timeout.

(** Modelled from the spec: the process state the clients thread;
    [fetchCounter] counts the upstream requests issued so far. *)
Record World := {
  disk : Disk;
  clock : nat;
  fetchCounter : nat;
}.

Inductive CallerError := InvalidYear | InvalidMunicipalityCode.

Inductive Result (A : Type) := Ok (a : A) | Err (e : CallerError).
#[global] Arguments Ok {A} a.
#[global] Arguments Err {A} e.

(** Best-effort records with the out-of-band degraded indicator. *)
Record Fetched (A : Type) := {
  records : list A;
  degraded : bool;
}.
#[global] Arguments records {A} _.
#[global] Arguments degraded {A} _.

(** The bounded attempt count of section 7. *)
Definition maxAttempts : nat := 3.

Section Clients.
(** The provider's answer to the [n]-th request ever issued. *)
Variable upstream : nat → Key → Response.

Definition request (k : Key) (w : World) : Response * World :=
  (upstream (fetchCounter w) k,
   {| disk := disk w; clock := clock w; fetchCounter := S (fetchCounter w) |}).

Definition sleep (delay : nat) (w : World) : World :=
  {| disk := disk w; clock := (clock w + delay)%nat; fetchCounter := fetchCounter w |}.

(** A failed cache write is swallowed. *)
Definition cacheWrite (k : Key) (p : Payload) (w : World) : World :=
  {| disk := (put k p (clock w) (disk w)).2;
     clock := clock w; fetchCounter := fetchCounter w |}.

(** Modelled from the spec: the retry policy of section 7, missing
    from the sources.  The raw payload is cached before it is
    normalized; a payload that does not normalize counts as a failed
    attempt; the delay doubles between attempts. *)
Fixpoint liveFetch {A : Type} (normalize : Payload → option A)
    (attempts delay : nat) (k : Key) (w : World) : option A * World :=
  match attempts with
  | O => (None, w)
  | S attempts' =>
      let (resp, w1) := request k w in
      match resp with
      | HttpOk body =>
          let w2 := cacheWrite k body w1 in
          match normalize body with
          | Some rows => (Some rows, w2)
          | None => liveFetch normalize attempts' (2 * delay) k (sleep delay w2)
          end
      | HttpError _ | NetworkFailure | Timeout =>
          liveFetch normalize attempts' (2 * delay) k (sleep delay w1)
      end
  end.

(** An attempt fails on anything but a success status with a payload
    that normalizes. *)
Definition attemptFails {A : Type} (normalize : Payload → option A)
    (r : Response) : Prop :=
  match r with
  | HttpOk body => normalize body = None
  | HttpError _ | NetworkFailure | Timeout => True
  end.

(** *** CensusClient (section 4.3) *)

Variable supportedYears : list Z.
Variable tableId : string.
(** The bundled static dataset. *)
Variable staticDataset : list PopulationRecord.
(** The census provider's normalization: rows, or a malformed payload. *)
Variable normalizeCensus : Payload → option (list PopulationRecord).

Definition staticFor (year : Z) : list PopulationRecord :=
  List.filter (λ r, bool_decide (pr_year r = year)) staticDataset.

(** Rows with a negative population or without a code are discarded. *)
Definition validate (rows : list PopulationRecord) : list PopulationRecord :=
  List.filter
    (λ r, bool_decide (0 ≤ pr_population r) && negb (String.eqb (pr_code r) ""))
    rows.

(** Modelled from the spec: [CensusClient.fetchPopulation], missing
    from the sources. *)
Definition fetchPopulation (creds : CredentialAvailability) (year : Z)
    (w : World) : Result (Fetched PopulationRecord) * World :=
  if bool_decide (year ∈ supportedYears) then
    if censusKeyPresent creds then
      match liveFetch normalizeCensus maxAttempts 1 (CensusKey tableId year) w with
      | (Some rows, w') =>
          (Ok {| records := validate rows; degraded := false |}, w')
      | (None, w') =>
          (Ok {| records := staticFor year; degraded := true |}, w')
      end
    else (Ok {| records := staticFor year; degraded := true |}, w)
  else (Err InvalidYear, w).

(** *** RealEstateClient (section 4.4) *)

Variable normalizeRealEstate : Payload → option (list RealEstateTransaction).

Definition isDigit (a : Ascii.ascii) : bool :=
  let n := Ascii.nat_of_ascii a in
  bool_decide (48 ≤ n ≤ 57)%nat.

(** Five characters, numeric. *)
Definition validCode (code : MunicipalityCode) : bool :=
  let cs := String.list_ascii_of_string code in
  bool_decide (List.length cs = 5%nat) && forallb isDigit cs.

(** Modelled from the spec: one year window of section 4.4, the cached
    payload if it is there and parses, otherwise one upstream request
    under the retry policy. *)
Definition fetchYear (code : MunicipalityCode) (year : Z) (w : World)
    : Fetched RealEstateTransaction * World :=
  let k := RealEstateKey code year in
  let cached :=
    match get k (disk w) with
    | Found p => normalizeRealEstate p
    | NotFound => None
    end in
  match cached with
  | Some txs => ({| records := txs; degraded := false |}, w)
  | None =>
      match liveFetch normalizeRealEstate maxAttempts 1 k w with
      | (Some txs, w') => ({| records := txs; degraded := false |}, w')
      | (None, w') => ({| records := []; degraded := true |}, w')
      end
  end.

(** The years [yearFrom .. yearTo], ascending. *)
Definition yearWindow (yearFrom yearTo : Z) : list Z :=
  seqZ yearFrom (yearTo - yearFrom + 1).

Fixpoint fetchYears (code : MunicipalityCode) (years : list Z) (w : World)
    : Fetched RealEstateTransaction * World :=
  match years with
  | [] => ({| records := []; degraded := false |}, w)
  | y :: years' =>
      let (r, w1) := fetchYear code y w in
      let (rs, w2) := fetchYears code years' w1 in
      ({| records := records r ++ records rs;
          degraded := degraded r || degraded rs |}, w2)
  end.

(** Modelled from the spec: [RealEstateClient.fetchTransactions],
    missing from the sources.  Without the key the answer is empty and
    immediate; as for every environmental failure of section 7 the
    degraded indicator is set. *)
Definition fetchTransactions (creds : CredentialAvailability)
    (code : MunicipalityCode) (yearFrom yearTo : Z) (w : World)
    : Result (Fetched RealEstateTransaction) * World :=
  if realEstateKeyPresent creds then
    if validCode code then
      let (r, w') := fetchYears code (yearWindow yearFrom yearTo) w in
      (Ok r, w')
    else (Err InvalidMunicipalityCode, w)
  else (Ok {| records := []; degraded := true |}, w).
End Clients.

(** *** RealEstateAggregator (section 4.5) *)

Section Aggregator.
(** The year a trade date falls in. *)
Variable yearOfTradeDate : string → Z.

Definition yearOf (t : RealEstateTransaction) : option Z :=
  match tradeDate t with
  | Some d => Some (yearOfTradeDate d)
  | None => yearField t
  end.

Definition yearGroup (y : Z) (txs : list RealEstateTransaction)
    : list RealEstateTransaction :=
  List.filter (λ t, bool_decide (yearOf t = Some y)) txs.

(** The years present in the input, each once, ascending. *)
Definition yearsPresent (txs : list RealEstateTransaction) : list Z :=
  merge_sort Z.le (remove_dups (omap yearOf txs)).

(** Integer mean, rounded to nearest, halves to even. *)
Definition roundHalfEven (num den : Z) : Z :=
  let q := num / den in
  let r := num mod den in
  if bool_decide (2 * r < den) then q
  else if bool_decide (den < 2 * r) then q + 1
  else if Z.even q then q else q + 1.

Definition sumZ (l : list Z) : Z := foldr Z.add 0 l.

Definition mean (prices : list Z) : option Z :=
  match prices with
  | [] => None
  | _ :: _ => Some (roundHalfEven (sumZ prices) (Z.of_nat (List.length prices)))
  end.

Definition minimum (prices : list Z) : option Z :=
  match prices with
  | [] => None
  | p :: ps => Some (foldl Z.min p ps)
  end.

Definition maximum (prices : list Z) : option Z :=
  match prices with
  | [] => None
  | p :: ps => Some (foldl Z.max p ps)
  end.

Definition summarizeYear (code : MunicipalityCode)
    (txs : list RealEstateTransaction) (y : Z) : RealEstateYearlySummary :=
  let group := yearGroup y txs in
  let prices := omap unitPrice group in
  {| code := code;
     year := y;
     transactionCount := Z.of_nat (List.length group);
     avgUnitPrice := mean prices;
     minUnitPrice := minimum prices;
     maxUnitPrice := maximum prices |}.

(** Modelled from the spec: [RealEstateAggregator.summarize], missing
    from the sources. *)
Definition summarize (txs : list RealEstateTransaction)
    (code : MunicipalityCode) : list RealEstateYearlySummary :=
  summarizeYear code txs <$> yearsPresent txs.
End Aggregator.
End Core.

(** ** Vocabulary of the statements *)

(** The years of the two inputs of the join; a [null] real-estate series
    has none. *)
Definition populationYears (pop : Population.MunicipalityTimeSeries) : list Z :=
  Population.year <$> Population.data pop.

Definition realEstateYears (re : option RealEstate.RealEstateTimeSeries) : list Z :=
  match re with
  | Some r => RealEstate.year <$> RealEstate.data r
  | None => []
  end.

Definition combinedYears (out : list CombinedChart.Combined) : list Z :=
  CombinedChart.year <$> out.

(** What both [forEach] loops keep true of [dataMap]: a key occurs once,
    and a record sits under its own year. *)
Definition dataMapOk (m : JS.Map Z CombinedChart.Combined) : Prop :=
  NoDup (JS.keys m) ∧ Forall (λ kv, CombinedChart.year kv.2 = kv.1) m.

(** The joined record of a population record that has no real-estate
    counterpart. *)
Definition populationOnly (d : Population.YearlyPopulation) : CombinedChart.Combined :=
  {| CombinedChart.year := Population.year d;
     CombinedChart.population := Some (Population.population d);
     CombinedChart.avg_unit_price := None;
     CombinedChart.transaction_count := None |}.

(** The records of the real-estate series, none for [null]. *)
Definition realEstateRecords (re : option RealEstate.RealEstateTimeSeries)
    : list RealEstate.RealEstateYearlyData :=
  match re with
  | Some r => RealEstate.data r
  | None => []
  end.

(** The sum of the changes a table column shows; a cell that is [null]
    shows a dash and adds nothing. *)
Definition shownTotal (cells : list (JS.Outcome (option Z))) : Z :=
  foldr (λ cell acc,
           match cell with
           | JS.Value (Some z) => z + acc
           | JS.Value None | JS.TypeError => acc
           end) 0 cells.

(** Whether a head count is in the band a legend label names. *)
Definition inBand (b : App.Band) (population : Z) : bool :=
  match b with
  | App.AtLeast people => bool_decide (people ≤ population)
  | App.Below people => bool_decide (population < people)
  end.

(** A string of decimal digits, as municipality codes are. *)
Definition digits (s : JS.String) : Prop := Forall (λ c, 48 ≤ c ≤ 57)%N s.

(** The response to the request for the available years. *)
Definition isYearsSettled (e : App.Event) : bool :=
  match e with
  | App.YearsSettled _ => true
  | _ => false
  end.

(** [r], found at index [i], is nearest to the slider value among the
    elements of [l], and no earlier element is as near. *)
Definition nearestAt (value : Z) (l : list Z) (i : nat) (r : Z) : Prop :=
  l !! i = Some r
  ∧ ∀ j y, l !! j = Some y →
      Z.abs (r - value) ≤ Z.abs (y - value)
      ∧ (Z.abs (y - value) = Z.abs (r - value) → (i ≤ j)%nat).

(** [sub] occurs in [s] as a contiguous run of code units. *)
Definition occursIn (sub s : JS.String) : Prop :=
  ∃ before after, s = before ++ sub ++ after.

(** ** Scenario data *)

Definition scenarioPopulation : Population.MunicipalityTimeSeries :=
  {| Population.code := JS.lit "13101";
     Population.prefecture := JS.lit "Tokyo";
     Population.municipality := JS.lit "Chiyoda";
     Population.data :=
       [ {| Population.year := 2015; Population.population := 100000 |};
         {| Population.year := 2020; Population.population := 95000 |} ] |}.

Definition scenarioRealEstate : RealEstate.RealEstateTimeSeries :=
  {| RealEstate.code := JS.lit "13101";
     RealEstate.prefecture := JS.lit "Tokyo";
     RealEstate.municipality := JS.lit "Chiyoda";
     RealEstate.data :=
       [ {| RealEstate.year := 2015; RealEstate.transaction_count := 10;
            RealEstate.avg_unit_price := 500000;
            RealEstate.min_unit_price := 400000;
            RealEstate.max_unit_price := 600000 |} ] |}.

(** The same series with one more real-estate year, 2010, that the
    population series lacks. *)
Definition scenarioRealEstate2010 : RealEstate.RealEstateTimeSeries :=
  {| RealEstate.code := JS.lit "13101";
     RealEstate.prefecture := JS.lit "Tokyo";
     RealEstate.municipality := JS.lit "Chiyoda";
     RealEstate.data :=
       RealEstate.data scenarioRealEstate ++
       [ {| RealEstate.year := 2010; RealEstate.transaction_count := 7;
            RealEstate.avg_unit_price := 450000;
            RealEstate.min_unit_price := 300000;
            RealEstate.max_unit_price := 700000 |} ] |}.

Definition scenarioKey : Core.Key := Core.RealEstateKey "13101" 2015.

Definition scenarioPayload : Core.Payload := [Byte.x7b; Byte.x7d].

(** A provider that answers every request with status 500. *)
Definition alwaysHttp500 (n : nat) (k : Core.Key) : Core.Response :=
  Core.HttpError 500.

Definition startWorld : Core.World :=
  {| Core.disk := Core.emptyDisk true; Core.clock := 0; Core.fetchCounter := 0 |}.

Definition censusYears : list Z := [2000; 2005; 2010; 2015; 2020].

Definition bundledDataset : list Core.PopulationRecord :=
  [ {| Core.pr_code := "13101"; Core.pr_prefectureName := "Tokyo";
       Core.pr_municipalityName := "Chiyoda";
       Core.pr_year := 2015; Core.pr_population := 58406 |};
    {| Core.pr_code := "13101"; Core.pr_prefectureName := "Tokyo";
       Core.pr_municipalityName := "Chiyoda";
       Core.pr_year := 2020; Core.pr_population := 66680 |};
    {| Core.pr_code := "13102"; Core.pr_prefectureName := "Tokyo";
       Core.pr_municipalityName := "Chuo";
       Core.pr_year := 2020; Core.pr_population := 169179 |} ].

(** The year of a date that starts with four digits, as in 2015-04-01. *)
Definition leadingYear (d : string) : Z :=
  foldl (λ acc a, 10 * acc + (Z.of_nat (Ascii.nat_of_ascii a) - 48)) 0
        (take 4 (String.list_ascii_of_string d)).

Definition filing (date : option string) (providerYear : option Z)
    (price : option Z) : Core.RealEstateTransaction :=
  {| Core.prefectureName := "Tokyo"; Core.municipalityName := "Chiyoda";
     Core.district := None; Core.tradeDate := date;
     Core.tradePrice := None; Core.unitPrice := price; Core.area := None;
     Core.buildingYear := None; Core.structure := None; Core.use := None;
     Core.cityPlanning := None; Core.priceClassification := None;
     Core.yearField := providerYear |}.

(** Two filings of 2015 without a unit price, three of 2016 of which two
    carry one, and one filing without any year. *)
Definition scenarioFilings : list Core.RealEstateTransaction :=
  [ filing (Some "2016-01-15") None (Some 2);
    filing (Some "2015-04-01") None None;
    filing None (Some 2015) None;
    filing (Some "2016-07-30") None None;
    filing None None (Some 9);
    filing None (Some 2016) (Some 3) ].

Definition scenarioMunicipalities : list Population.MunicipalityListItem :=
  [ {| Population.item_code := JS.lit "13101";
       Population.item_prefecture := JS.lit "Tokyo";
       Population.item_municipality := JS.lit "Chiyoda" |};
    {| Population.item_code := JS.lit "13102";
       Population.item_prefecture := JS.lit "Tokyo";
       Population.item_municipality := JS.lit "Chuo" |};
    {| Population.item_code := JS.lit "27100";
       Population.item_prefecture := JS.lit "Osaka";
       Population.item_municipality := JS.lit "Osaka" |} ].

(** The third entry of [scenarioMunicipalities]. *)
Definition scenarioOsaka : Population.MunicipalityListItem :=
  {| Population.item_code := JS.lit "27100";
     Population.item_prefecture := JS.lit "Osaka";
     Population.item_municipality := JS.lit "Osaka" |}.

(** Three population records: one with coordinates in the table, one
    without, and one whose code is an inherited member's name. *)
Definition scenarioChiyoda : Population.MunicipalityPopulation :=
  {| Population.mp_code := JS.lit "13101";
     Population.mp_prefecture := JS.lit "Tokyo";
     Population.mp_municipality := JS.lit "Chiyoda";
     Population.mp_population := 66680 |}.

Definition scenarioUnlisted : Population.MunicipalityPopulation :=
  {| Population.mp_code := JS.lit "47201";
     Population.mp_prefecture := JS.lit "Okinawa";
     Population.mp_municipality := JS.lit "Naha";
     Population.mp_population := 317625 |}.

Definition scenarioInherited : Population.MunicipalityPopulation :=
  {| Population.mp_code := JS.lit "constructor";
     Population.mp_prefecture := JS.lit "";
     Population.mp_municipality := JS.lit "";
     Population.mp_population := 1 |}.

(** The years arrive, the first year's population arrives, the slider
    moves to 2004. *)
Definition scenarioEvents : list App.Event :=
  [ App.YearsSettled (JS.Resolved [2000; 2005; 2010]);
    App.PopulationSettled (JS.Resolved [scenarioChiyoda]);
    App.SliderMoved 2004 ].

(** Chiyoda is selected and its two series have arrived. *)
Definition scenarioChartOpen : App.State :=
  App.run [ App.TimeSeriesSettled (JS.lit "13101") (JS.Resolved scenarioPopulation);
            App.RealEstateSettled (JS.Resolved scenarioRealEstate) ]
          App.initial.

(** * Proofs *)

(** ** The insertion-ordered map *)

Section JSMapFacts.
Context {K V : Type} `{EqDecision K}.
Implicit Types (m : JS.Map K V) (k : K) (v : V).

Lemma get_None m k : JS.get k m = None ↔ k ∉ JS.keys m.
Proof.
  unfold JS.keys. induction m as [|[k' v'] m IH]; simpl.
  - split; [intros _; apply not_elem_of_nil | done].
  - rewrite not_elem_of_cons, <- IH. case_decide; subst.
    + split; [done | by intros [? _]].
    + split; [by split | by intros [_ ?]].
Qed.

Lemma get_Some_elem m k v : JS.get k m = Some v → (k, v) ∈ m.
Proof.
  induction m as [|[k' v'] m IH]; simpl; [done|].
  case_decide; subst.
  - intros [= ->]. left.
  - intros. right. auto.
Qed.

Lemma elem_get_Some m k v :
  NoDup (JS.keys m) → (k, v) ∈ m → JS.get k m = Some v.
Proof.
  unfold JS.keys. induction m as [|[k' v'] m IH]; simpl.
  - intros _ Hin. by apply elem_of_nil in Hin.
  - rewrite NoDup_cons. intros [Hk' Hnd] Hin.
    apply elem_of_cons in Hin as [[= <- <-]|Hin].
    + by rewrite decide_True.
    + rewrite decide_False; [auto|].
      intros ->. apply Hk'. apply list_elem_of_fmap. by exists (k, v).
Qed.

Lemma get_set_eq m k v : JS.get k (JS.set k v m) = Some v.
Proof.
  induction m as [|[k' v'] m IH]; simpl.
  - by rewrite decide_True.
  - destruct (decide (k' = k)) as [->|Hne]; simpl.
    + by rewrite decide_True.
    + by rewrite decide_False.
Qed.

Lemma get_set_ne m k k' v : k ≠ k' → JS.get k' (JS.set k v m) = JS.get k' m.
Proof.
  intros Hne. induction m as [|[k0 v0] m IH]; simpl.
  - by rewrite decide_False.
  - destruct (decide (k0 = k)) as [->|Hne0]; simpl.
    + by rewrite !decide_False.
    + by rewrite IH.
Qed.

Lemma keys_set_elem m k v k' :
  k' ∈ JS.keys (JS.set k v m) ↔ k' = k ∨ k' ∈ JS.keys m.
Proof.
  unfold JS.keys. induction m as [|[k0 v0] m IH]; simpl.
  - rewrite elem_of_cons, elem_of_nil. tauto.
  - destruct (decide (k0 = k)) as [->|Hne0]; simpl;
      rewrite !elem_of_cons; [|rewrite IH]; tauto.
Qed.

Lemma keys_set_NoDup m k v : NoDup (JS.keys m) → NoDup (JS.keys (JS.set k v m)).
Proof.
  induction m as [|[k0 v0] m IH]; simpl.
  - intros _. apply NoDup_singleton.
  - intros [Hk0 Hnd]%NoDup_cons.
    destruct (decide (k0 = k)) as [->|Hne0]; simpl.
    + by apply NoDup_cons.
    + apply NoDup_cons. split; [|by apply IH].
      intros Hin. apply (keys_set_elem m k v k0) in Hin as [?|?]; auto.
Qed.

Lemma set_Forall (P : K * V → Prop) m k v :
  P (k, v) → Forall P m → Forall P (JS.set k v m).
Proof.
  intros HP. induction 1 as [|[k0 v0] m H0 Hm IH]; simpl.
  - by repeat constructor.
  - destruct (decide (k0 = k)) as [->|Hne0]; constructor; auto.
Qed.
End JSMapFacts.

(** ** The comparator sort *)

Section SortFacts.
Context {A : Type} (compareFn : A → A → Z).
Hypothesis compareFn_total : ∀ x y, compareFn x y ≤ 0 ∨ compareFn y x ≤ 0.

Let before (x y : A) : Prop := compareFn x y ≤ 0.

Lemma insert_Permutation x l : JS.insert compareFn x l ≡ₚ x :: l.
Proof.
  induction l as [|y l IH]; simpl; [done|].
  case_bool_decide; [done|].
  rewrite IH. apply Permutation_swap.
Qed.

Lemma sort_Permutation l : JS.sort compareFn l ≡ₚ l.
Proof.
  induction l as [|x l IH]; simpl; [done|].
  by rewrite insert_Permutation, IH.
Qed.

Lemma insert_HdRel z x l :
  before z x → HdRel before z l → HdRel before z (JS.insert compareFn x l).
Proof.
  intros Hzx Hzl. destruct l as [|y l]; simpl.
  - by constructor.
  - case_bool_decide; constructor; [done|].
    by inversion Hzl.
Qed.

Lemma insert_Sorted x l :
  Sorted before l → Sorted before (JS.insert compareFn x l).
Proof.
  induction 1 as [|y l Hl IH Hhd]; simpl.
  - by repeat constructor.
  - case_bool_decide as Hxy.
    + repeat constructor; done.
    + constructor; [done|].
      apply insert_HdRel; [|done].
      destruct (compareFn_total x y); [done|]. done.
Qed.

Lemma sort_Sorted l : Sorted before (JS.sort compareFn l).
Proof.
  induction l as [|x l IH]; simpl; [constructor|].
  by apply insert_Sorted.
Qed.
End SortFacts.

(** ** The join of [CombinedChart] *)

Section Join.
Import CombinedChart.

Lemma dataMapOk_empty : dataMapOk JS.empty.
Proof. split; [apply NoDup_nil_2 | constructor]. Qed.

Lemma addPopulation_ok m d : dataMapOk m → dataMapOk (addPopulation m d).
Proof.
  intros [Hnd Hyr]. split.
  - by apply keys_set_NoDup.
  - by apply set_Forall.
Qed.

Lemma get_year m k e : dataMapOk m → JS.get k m = Some e → year e = k.
Proof.
  intros [_ Hyr] Hget. apply get_Some_elem in Hget.
  rewrite Forall_forall in Hyr. exact (Hyr _ Hget).
Qed.

Lemma addRealEstate_ok m d : dataMapOk m → dataMapOk (addRealEstate m d).
Proof.
  intros Hok. pose proof Hok as [Hnd Hyr]. split.
  - by apply keys_set_NoDup.
  - apply set_Forall; [|done]. simpl.
    destruct (JS.get (RealEstate.year d) m) as [e|] eqn:Hget; simpl; [|done].
    by apply (get_year m).
Qed.

Lemma foldl_addPopulation_ok l m :
  dataMapOk m → dataMapOk (foldl addPopulation m l).
Proof. revert m. induction l; simpl; auto using addPopulation_ok. Qed.

Lemma foldl_addRealEstate_ok l m :
  dataMapOk m → dataMapOk (foldl addRealEstate m l).
Proof. revert m. induction l; simpl; auto using addRealEstate_ok. Qed.

Lemma dataMapOf_ok pop re : dataMapOk (dataMapOf pop re).
Proof.
  unfold dataMapOf. destruct re.
  - apply foldl_addRealEstate_ok, foldl_addPopulation_ok, dataMapOk_empty.
  - apply foldl_addPopulation_ok, dataMapOk_empty.
Qed.

Lemma foldl_addPopulation_keys l m k :
  k ∈ JS.keys (foldl addPopulation m l)
  ↔ k ∈ JS.keys m ∨ k ∈ Population.year <$> l.
Proof.
  revert m. induction l as [|d l IH]; intros m; simpl.
  - rewrite elem_of_nil. tauto.
  - rewrite IH. unfold addPopulation at 1.
    rewrite keys_set_elem, elem_of_cons. tauto.
Qed.

Lemma foldl_addRealEstate_keys l m k :
  k ∈ JS.keys (foldl addRealEstate m l)
  ↔ k ∈ JS.keys m ∨ k ∈ RealEstate.year <$> l.
Proof.
  revert m. induction l as [|d l IH]; intros m; simpl.
  - rewrite elem_of_nil. tauto.
  - rewrite IH. unfold addRealEstate at 1.
    rewrite keys_set_elem, elem_of_cons. tauto.
Qed.

Lemma dataMapOf_keys pop re k :
  k ∈ JS.keys (dataMapOf pop re)
  ↔ k ∈ populationYears pop ∨ k ∈ realEstateYears re.
Proof.
  unfold dataMapOf, populationYears, realEstateYears. destruct re as [r|].
  - rewrite foldl_addRealEstate_keys, foldl_addPopulation_keys.
    unfold JS.keys, JS.empty. simpl. rewrite elem_of_nil. tauto.
  - rewrite foldl_addPopulation_keys.
    unfold JS.keys, JS.empty. simpl. rewrite !elem_of_nil. tauto.
Qed.

Lemma values_years m : dataMapOk m → year <$> JS.values m = JS.keys m.
Proof.
  intros [_ Hyr]. unfold JS.values, JS.keys.
  induction m as [|[k v] m IH]; [done|].
  apply Forall_cons in Hyr as [Hkv Hyr]. simpl in Hkv.
  rewrite !fmap_cons. simpl. by rewrite Hkv, IH.
Qed.

Lemma byYear_total (a b : Combined) :
  year a - year b ≤ 0 ∨ year b - year a ≤ 0.
Proof. lia. Qed.

Lemma combinedData_Permutation pop re :
  combinedYears (combinedData pop re) ≡ₚ JS.keys (dataMapOf pop re).
Proof.
  unfold combinedYears, combinedData.
  rewrite sort_Permutation. by rewrite values_years by apply dataMapOf_ok.
Qed.

Lemma combinedData_Sorted pop re :
  Sorted Z.le (combinedYears (combinedData pop re)).
Proof.
  unfold combinedYears, combinedData.
  eapply Sorted_fmap; [|apply sort_Sorted, byYear_total].
  intros a b. simpl. lia.
Qed.

Lemma combinedData_NoDup pop re : NoDup (combinedYears (combinedData pop re)).
Proof.
  rewrite combinedData_Permutation. apply dataMapOf_ok.
Qed.

Lemma combinedData_years pop re y :
  y ∈ combinedYears (combinedData pop re)
  ↔ y ∈ populationYears pop ∨ y ∈ realEstateYears re.
Proof. by rewrite combinedData_Permutation, dataMapOf_keys. Qed.

(** A list of years that is ascending and free of repetitions is
    determined by its elements. *)
Lemma ascending_years_unique (l1 l2 : list Z) :
  Sorted Z.le l1 → Sorted Z.le l2 → NoDup l1 → NoDup l2 →
  (∀ y, y ∈ l1 ↔ y ∈ l2) → l1 = l2.
Proof.
  intros Hs1 Hs2 Hn1 Hn2 Hel.
  apply (Sorted_unique Z.le); [done..|].
  by apply NoDup_Permutation.
Qed.
End Join.

(** C1.  The joined output of [combinedData] has exactly one record per
    year of the union of the two inputs' years: its years are ascending,
    none occurs twice, and a year occurs iff it is a year of the
    population series or of the real-estate series.  The order in which
    the inputs' records arrive does not matter: inputs with the same
    years, in any order, give the same sequence of years. *)
Theorem C1_combinedData_union_sorted
    (pop : Population.MunicipalityTimeSeries)
    (re : option RealEstate.RealEstateTimeSeries) :
  let out := CombinedChart.combinedData pop re in
  Sorted Z.le (combinedYears out)
  ∧ NoDup (combinedYears out)
  ∧ (∀ y, y ∈ combinedYears out ↔ y ∈ populationYears pop ∨ y ∈ realEstateYears re)
  ∧ (∀ pop' re',
       populationYears pop' ≡ₚ populationYears pop →
       realEstateYears re' ≡ₚ realEstateYears re →
       combinedYears (CombinedChart.combinedData pop' re') = combinedYears out).
Proof.
  simpl. split; [apply combinedData_Sorted|].
  split; [apply combinedData_NoDup|].
  split; [apply combinedData_years|].
  intros pop' re' Hpop Hre.
  apply ascending_years_unique;
    auto using combinedData_Sorted, combinedData_NoDup.
  intros y. rewrite !combinedData_years. by rewrite Hpop, Hre.
Qed.

(** ** Records of years that only one input has *)

Section OneSided.
Import CombinedChart.

Lemma foldl_snoc {A B : Type} (f : A → B → A) (a : A) (l : list B) (b : B) :
  foldl f a (l ++ [b]) = f (foldl f a l) b.
Proof. by rewrite foldl_app. Qed.

Lemma filter_none {A : Type} (P : A → Prop) `{∀ x, Decision (P x)} (l : list A) :
  Forall (λ x, ¬ P x) l → filter P l = [].
Proof.
  induction 1 as [|x l Hx _ IH]; [done|].
  by rewrite filter_cons_False.
Qed.

Lemma foldl_addPopulation_other l m y :
  y ∉ Population.year <$> l →
  JS.get y (foldl addPopulation m l) = JS.get y m.
Proof.
  revert m. induction l as [|d l IH]; intros m; simpl; [done|].
  rewrite not_elem_of_cons. intros [Hne Hnin].
  rewrite IH by done. unfold addPopulation. by apply get_set_ne.
Qed.

Lemma foldl_addPopulation_get l m y :
  y ∈ Population.year <$> l →
  ∃ d, d ∈ l ∧ Population.year d = y
     ∧ JS.get y (foldl addPopulation m l)
       = Some {| year := y; population := Some (Population.population d);
                 avg_unit_price := None; transaction_count := None |}.
Proof.
  induction l as [|d l IH] using rev_ind; [by rewrite elem_of_nil|].
  rewrite fmap_app, elem_of_app, foldl_snoc. simpl.
  rewrite list_elem_of_singleton. intros Hin.
  destruct (decide (Population.year d = y)) as [Heq|Hne].
  - exists d. split; [apply elem_of_app; right; left|]. split; [done|].
    unfold addPopulation. rewrite Heq. apply get_set_eq.
  - destruct Hin as [Hin|Hin]; [|congruence].
    destruct (IH Hin) as (d' & Hd' & Hy & Hget).
    exists d'. split; [apply elem_of_app; by left|]. split; [done|].
    unfold addPopulation at 1. by rewrite get_set_ne.
Qed.

Lemma foldl_addRealEstate_other l m y :
  y ∉ RealEstate.year <$> l →
  JS.get y (foldl addRealEstate m l) = JS.get y m.
Proof.
  revert m. induction l as [|d l IH]; intros m; simpl; [done|].
  rewrite not_elem_of_cons. intros [Hne Hnin].
  rewrite IH by done. unfold addRealEstate. by apply get_set_ne.
Qed.

Lemma foldl_addRealEstate_get l m y :
  JS.get y m = None →
  y ∈ RealEstate.year <$> l →
  ∃ d, d ∈ l ∧ RealEstate.year d = y
     ∧ JS.get y (foldl addRealEstate m l)
       = Some {| year := y; population := None;
                 avg_unit_price := Some (RealEstate.avg_unit_price d);
                 transaction_count := Some (RealEstate.transaction_count d) |}.
Proof.
  intros Hm.
  induction l as [|d l IH] using rev_ind; [by rewrite elem_of_nil|].
  rewrite fmap_app, elem_of_app, foldl_snoc. simpl.
  rewrite list_elem_of_singleton. intros Hin.
  destruct (decide (RealEstate.year d = y)) as [Heq|Hne].
  - exists d. split; [apply elem_of_app; right; left|]. split; [done|].
    unfold addRealEstate at 1. rewrite Heq, get_set_eq.
    destruct (decide (y ∈ RealEstate.year <$> l)) as [Hl|Hl].
    + destruct (IH Hl) as (d' & _ & _ & ->). done.
    + rewrite foldl_addRealEstate_other, Hm by done. done.
  - destruct Hin as [Hin|Hin]; [|congruence].
    destruct (IH Hin) as (d' & Hd' & Hy & Hget).
    exists d'. split; [apply elem_of_app; by left|]. split; [done|].
    unfold addRealEstate at 1. by rewrite get_set_ne.
Qed.

Lemma values_filter_year m y v :
  dataMapOk m → JS.get y m = Some v →
  filter (λ r, year r = y) (JS.values m) = [v].
Proof.
  unfold JS.values. intros [Hnd Hyr].
  induction m as [|[k v0] m IH]; simpl; [done|].
  apply Forall_cons in Hyr as [Hkv Hyr]. simpl in Hkv.
  unfold JS.keys in Hnd. apply NoDup_cons in Hnd as [Hk Hnd].
  destruct (decide (k = y)) as [->|Hne].
  - intros [= ->]. rewrite filter_cons_True by done. f_equal.
    apply filter_none, Forall_forall.
    intros r [[k' r'] [-> Hr]]%list_elem_of_fmap. simpl.
    rewrite Forall_forall in Hyr. pose proof (Hyr _ Hr) as Hk'. simpl in Hk'.
    intros Hy. apply Hk. apply list_elem_of_fmap. exists (k', r').
    split; [simpl; congruence | done].
  - intros Hget. rewrite filter_cons_False by (simpl; congruence).
    by apply IH.
Qed.

Lemma combinedData_filter pop re y v :
  JS.get y (dataMapOf pop re) = Some v →
  filter (λ r, year r = y) (combinedData pop re) = [v].
Proof.
  intros Hget. apply Permutation_singleton_r.
  unfold combinedData. rewrite sort_Permutation.
  by rewrite (values_filter_year _ y v) by auto using dataMapOf_ok.
Qed.
End OneSided.

(** C2.  A year that only one input has yields exactly one joined record
    for that year, and the other side's fields are absent in it: for a
    population-only year the record carries the population of a record
    of the population series and neither [avg_unit_price] nor
    [transaction_count]; for a real-estate-only year it carries the two
    real-estate fields of a record of that series and no [population]. *)
Theorem C2_one_sided_year_fields_absent
    (pop : Population.MunicipalityTimeSeries)
    (re : option RealEstate.RealEstateTimeSeries) (y : Z) :
  (y ∈ populationYears pop → y ∉ realEstateYears re →
   ∃ d, d ∈ Population.data pop ∧ Population.year d = y
      ∧ filter (λ r, CombinedChart.year r = y) (CombinedChart.combinedData pop re)
        = [ {| CombinedChart.year := y;
               CombinedChart.population := Some (Population.population d);
               CombinedChart.avg_unit_price := None;
               CombinedChart.transaction_count := None |} ])
  ∧ (y ∉ populationYears pop → y ∈ realEstateYears re →
     ∃ r d, re = Some r ∧ d ∈ RealEstate.data r ∧ RealEstate.year d = y
      ∧ filter (λ r, CombinedChart.year r = y) (CombinedChart.combinedData pop re)
        = [ {| CombinedChart.year := y;
               CombinedChart.population := None;
               CombinedChart.avg_unit_price := Some (RealEstate.avg_unit_price d);
               CombinedChart.transaction_count := Some (RealEstate.transaction_count d) |} ]).
Proof.
  split.
  - intros Hpop Hre.
    destruct (foldl_addPopulation_get (Population.data pop) JS.empty y Hpop)
      as (d & Hd & Hy & Hget).
    exists d. split; [done|]. split; [done|].
    apply combinedData_filter. unfold CombinedChart.dataMapOf.
    destruct re as [r|]; [|done].
    by rewrite foldl_addRealEstate_other.
  - intros Hpop Hre. destruct re as [r|]; [|by apply elem_of_nil in Hre].
    assert (JS.get y (foldl CombinedChart.addPopulation JS.empty (Population.data pop)) = None)
      as Hnone by by rewrite foldl_addPopulation_other.
    destruct (foldl_addRealEstate_get (RealEstate.data r) _ y Hnone Hre)
      as (d & Hd & Hy & Hget).
    exists r, d. split; [done|]. split; [done|]. split; [done|].
    by apply combinedData_filter.
Qed.

Lemma C2_witness :
  (∃ d, d ∈ Population.data scenarioPopulation ∧ Population.year d = 2020
      ∧ filter (λ r, CombinedChart.year r = 2020)
          (CombinedChart.combinedData scenarioPopulation (Some scenarioRealEstate))
        = [ {| CombinedChart.year := 2020;
               CombinedChart.population := Some (Population.population d);
               CombinedChart.avg_unit_price := None;
               CombinedChart.transaction_count := None |} ])
  ∧ (∃ r d, Some scenarioRealEstate2010 = Some r ∧ d ∈ RealEstate.data r
      ∧ RealEstate.year d = 2010
      ∧ filter (λ r, CombinedChart.year r = 2010)
          (CombinedChart.combinedData scenarioPopulation (Some scenarioRealEstate2010))
        = [ {| CombinedChart.year := 2010;
               CombinedChart.population := None;
               CombinedChart.avg_unit_price := Some (RealEstate.avg_unit_price d);
               CombinedChart.transaction_count := Some (RealEstate.transaction_count d) |} ]).
Proof.
  split.
  - apply (C2_one_sided_year_fields_absent scenarioPopulation (Some scenarioRealEstate) 2020).
    + apply (bool_decide_unpack _). vm_compute. exact I.
    + apply (bool_decide_unpack _). vm_compute. exact I.
  - apply (C2_one_sided_year_fields_absent scenarioPopulation (Some scenarioRealEstate2010) 2010).
    + apply (bool_decide_unpack _). vm_compute. exact I.
    + apply (bool_decide_unpack _). vm_compute. exact I.
Defined.

(** C4.  For every population series with the records
    [(2015, 100000), (2020, 95000)] and every real-estate series with
    the one record [(2015, count 10, average 500000)] the join is the
    2015 record with all three values followed by the 2020 record with
    the population only. *)
Theorem C4_join_scenario
    (populationData : Population.MunicipalityTimeSeries)
    (realEstateData : RealEstate.RealEstateTimeSeries) (lowest highest : Z) :
  Population.data populationData
  = [ {| Population.year := 2015; Population.population := 100000 |};
      {| Population.year := 2020; Population.population := 95000 |} ] →
  RealEstate.data realEstateData
  = [ {| RealEstate.year := 2015; RealEstate.transaction_count := 10;
         RealEstate.avg_unit_price := 500000;
         RealEstate.min_unit_price := lowest;
         RealEstate.max_unit_price := highest |} ] →
  CombinedChart.combinedData populationData (Some realEstateData)
  = [ {| CombinedChart.year := 2015;
         CombinedChart.population := Some 100000;
         CombinedChart.avg_unit_price := Some 500000;
         CombinedChart.transaction_count := Some 10 |};
      {| CombinedChart.year := 2020;
         CombinedChart.population := Some 95000;
         CombinedChart.avg_unit_price := None;
         CombinedChart.transaction_count := None |} ].
Proof.
  intros Hpop Hre. unfold CombinedChart.combinedData, CombinedChart.dataMapOf.
  rewrite Hpop, Hre. reflexivity.
Qed.

Lemma C4_witness :
  CombinedChart.combinedData scenarioPopulation (Some scenarioRealEstate)
  = [ {| CombinedChart.year := 2015;
         CombinedChart.population := Some 100000;
         CombinedChart.avg_unit_price := Some 500000;
         CombinedChart.transaction_count := Some 10 |};
      {| CombinedChart.year := 2020;
         CombinedChart.population := Some 95000;
         CombinedChart.avg_unit_price := None;
         CombinedChart.transaction_count := None |} ].
Proof.
  apply (C4_join_scenario scenarioPopulation scenarioRealEstate 400000 600000);
    reflexivity.
Defined.

(** ** The municipality search *)

Lemma startsWith_prefix (s sub : JS.String) :
  JS.startsWith s sub = true ↔ ∃ after, s = sub ++ after.
Proof.
  revert s. induction sub as [|c sub IH]; intros s.
  - split; [intros _; by exists s | by destruct s].
  - destruct s as [|d s]; simpl.
    + split; [done | by intros [after ?]].
    + rewrite andb_true_iff, bool_decide_eq_true, IH. split.
      * intros [-> [after ->]]. by exists after.
      * intros [after [= -> ->]]. split; [done | by exists after].
Qed.

Lemma includes_occursIn (s sub : JS.String) :
  JS.includes s sub = true ↔ occursIn sub s.
Proof.
  unfold occursIn. induction s as [|d s IH].
  - change (JS.includes [] sub) with (JS.startsWith [] sub || false).
    rewrite orb_false_r, startsWith_prefix. split.
    + intros [after ->]. by exists [], after.
    + intros (before & after & Heq). symmetry in Heq.
      apply app_eq_nil in Heq as [-> Heq]. by exists after.
  - change (JS.includes (d :: s) sub)
      with (JS.startsWith (d :: s) sub || JS.includes s sub).
    rewrite orb_true_iff, startsWith_prefix, IH. split.
    + intros [[after Heq]|(before & after & ->)].
      * exists [], after. by rewrite Heq.
      * by exists (d :: before), after.
    + intros (before & after & Heq). destruct before as [|b before].
      * left. by exists after.
      * right. injection Heq as -> ->. by exists before, after.
Qed.

(** C8.  The search result has at most 50 entries, and for a non-empty
    search text every entry of it matches: the lowercased text occurs in
    the entry's lowercased municipality name or lowercased prefecture
    name, or the text as typed occurs in the entry's code. *)
Theorem C8_filteredMunicipalities_bounded_matching
    (toLowerCase : JS.String → JS.String)
    (municipalities : list Population.MunicipalityListItem)
    (searchText : JS.String) :
  let result :=
    MunicipalitySearch.filteredMunicipalities toLowerCase municipalities searchText in
  (List.length result ≤ 50)%nat
  ∧ (searchText ≠ [] →
     ∀ m, m ∈ result →
       occursIn (toLowerCase searchText) (toLowerCase (Population.item_municipality m))
       ∨ occursIn (toLowerCase searchText) (toLowerCase (Population.item_prefecture m))
       ∨ occursIn searchText (Population.item_code m)).
Proof.
  simpl. split.
  - unfold MunicipalitySearch.filteredMunicipalities, JS.slice0.
    destruct searchText; rewrite length_take; lia.
  - intros Hne m. unfold MunicipalitySearch.filteredMunicipalities, JS.slice0.
    destruct searchText as [|c cs]; [done|].
    intros (i & Hin%list_elem_of_lookup_2 & _)%elem_of_take.
    apply list_elem_of_In, filter_In in Hin as [_ Hm].
    unfold MunicipalitySearch.matches in Hm.
    rewrite !orb_true_iff, !includes_occursIn in Hm. tauto.
Qed.

(** ** The time slider *)

Section Closest.
Variable value : Z.

Let pick (prev curr : Z) : Z :=
  if bool_decide (Z.abs (curr - value) < Z.abs (prev - value)) then curr else prev.

Lemma foldl_pick_nearest (x : Z) (rest : list Z) :
  ∃ i, nearestAt value (x :: rest) i (foldl pick x rest).
Proof.
  induction rest as [|c rest IH] using rev_ind.
  - exists 0%nat. split; [done|]. intros [|j] y; simpl; [|done].
    intros [= ->]. split; [lia|done].
  - destruct IH as (i & Hi & Hmin). rewrite foldl_snoc.
    set (r := foldl pick x rest) in *.
    assert (i < List.length (x :: rest))%nat as Hlt by by eapply lookup_lt_Some.
    unfold pick at 1. case_bool_decide as Hcmp.
    + exists (List.length (x :: rest)). split.
      * by rewrite app_comm_cons, list_lookup_middle.
      * intros j y. rewrite app_comm_cons. intros Hj.
        apply lookup_app_Some in Hj as [Hj|[Hge Hj]].
        -- destruct (Hmin j y Hj). split; lia.
        -- destruct (j - List.length (x :: rest))%nat eqn:Hd; [|done].
           injection Hj as ->. split; [lia|]. intros _. lia.
    + exists i. split.
      * rewrite app_comm_cons. by apply lookup_app_l_Some.
      * intros j y. rewrite app_comm_cons. intros Hj.
        apply lookup_app_Some in Hj as [Hj|[Hge Hj]]; [by apply Hmin|].
        destruct (j - List.length (x :: rest))%nat eqn:Hd; [|done].
        injection Hj as ->. split; lia.
Qed.
End Closest.

(** C9.  For a non-empty [years] array and an integer slider value,
    [handleSliderChange] hands [onYearChange] an element of the array
    whose distance to the slider value is minimal, the earliest such
    element on ties; in particular the year is one of the array. *)
Theorem C9_handleSliderChange_nearest (years : list Z) (value : Z) :
  years ≠ [] →
  ∃ closest i,
    TimeSlider.handleSliderChange years value = JS.Value closest
    ∧ nearestAt value years i closest
    ∧ closest ∈ years.
Proof.
  intros Hne. destruct years as [|x rest]; [done|].
  destruct (foldl_pick_nearest value x rest) as [i Hi].
  eexists _, i. split; [reflexivity|]. split; [exact Hi|].
  destruct Hi as [Hi _]. by eapply list_elem_of_lookup_2.
Qed.

Lemma C9_witness :
  ∃ closest i,
    TimeSlider.handleSliderChange [2000; 2005; 2010; 2015; 2020] 2008 = JS.Value closest
    ∧ nearestAt 2008 [2000; 2005; 2010; 2015; 2020] i closest
    ∧ closest ∈ [2000; 2005; 2010; 2015; 2020].
Proof.
  apply (C9_handleSliderChange_nearest [2000; 2005; 2010; 2015; 2020] 2008).
  discriminate.
Defined.

(** ** The population-change statistics *)

Lemma index_first {A : Type} (x : A) (l : list A) : JS.index (x :: l) 0 = Some x.
Proof. done. Qed.

Lemma index_last {A : Type} (l : list A) :
  l ≠ [] → ∃ x, JS.index l (JS.length l - 1) = Some x ∧ last l = Some x.
Proof.
  intros Hne. destruct (last l) as [x|] eqn:Hlast.
  - exists x. split; [|done]. unfold JS.index, JS.length.
    destruct l as [|y l]; [done|]. simpl List.length.
    rewrite bool_decide_eq_true_2 by lia.
    replace (Z.to_nat (Z.of_nat (S (List.length l)) - 1)) with (List.length l) by lia.
    rewrite last_lookup in Hlast. simpl in Hlast. done.
  - by apply last_None in Hlast.
Qed.

(** C10.  [popChange] of [CombinedChart] and [change] of
    [PopulationChart] read the first and the last element of the series
    unguarded.  On a non-empty series both index reads are in bounds and
    both computations yield the last population minus the first; on the
    empty series both reads are out of bounds and both computations
    throw. *)
Theorem C10_popChange_bounds (populationData : Population.MunicipalityTimeSeries) :
  let data := Population.data populationData in
  (data ≠ [] →
   ∃ f l, JS.index data 0 = Some f
        ∧ JS.index data (JS.length data - 1) = Some l
        ∧ CombinedChart.popChange populationData
          = JS.Value (Population.population l - Population.population f)
        ∧ PopulationChart.change populationData
          = JS.Value (Population.population l - Population.population f))
  ∧ (data = [] →
     JS.index data 0 = None
     ∧ JS.index data (JS.length data - 1) = None
     ∧ CombinedChart.popChange populationData = JS.TypeError
     ∧ PopulationChart.change populationData = JS.TypeError).
Proof.
  simpl. unfold CombinedChart.popChange, PopulationChart.change. split.
  - intros Hne. destruct (index_last _ Hne) as (l & Hl & _).
    destruct (Population.data populationData) as [|f data] eqn:Hdata; [done|].
    exists f, l. rewrite Hl, index_first. done.
  - intros ->. done.
Qed.

Lemma C10_witness :
  (∃ f l, JS.index (Population.data scenarioPopulation) 0 = Some f
        ∧ JS.index (Population.data scenarioPopulation)
            (JS.length (Population.data scenarioPopulation) - 1) = Some l
        ∧ CombinedChart.popChange scenarioPopulation
          = JS.Value (Population.population l - Population.population f)
        ∧ PopulationChart.change scenarioPopulation
          = JS.Value (Population.population l - Population.population f))
  ∧ CombinedChart.popChange
      {| Population.code := []; Population.prefecture := [];
         Population.municipality := []; Population.data := [] |} = JS.TypeError.
Proof.
  split.
  - apply (C10_popChange_bounds scenarioPopulation). discriminate.
  - apply (C10_popChange_bounds
             {| Population.code := []; Population.prefecture := [];
                Population.municipality := []; Population.data := [] |}).
    reflexivity.
Defined.

(** ** The response cache *)

Lemma put_writable k p now (d : Core.Disk) :
  Core.writable d = true → (Core.put k p now d).1 = Core.Success.
Proof. unfold Core.put. by intros ->. Qed.

Lemma put_failure_keeps k p now (d : Core.Disk) :
  (Core.put k p now d).1 = Core.WriteFailure → (Core.put k p now d).2 = d.
Proof. unfold Core.put. by destruct (Core.writable d). Qed.

Lemma put_other k k' p now (d : Core.Disk) :
  k ≠ k' → Core.get k' (Core.put k p now d).2 = Core.get k' d.
Proof.
  intros Hne. unfold Core.put, Core.get.
  destruct (Core.writable d); simpl; [|done].
  by rewrite lookup_insert_ne.
Qed.

Lemma putAll_other ops k (d : Core.Disk) :
  k ∉ ops.*1.*1 → Core.get k (Core.putAll ops d) = Core.get k d.
Proof.
  unfold Core.putAll. revert d.
  induction ops as [|[[k' p] now] ops IH]; intros d; simpl; [done|].
  rewrite not_elem_of_cons. intros [Hne Hnin].
  rewrite IH by done. by apply put_other.
Qed.

(** C7.  A [put] that stores its payload, followed by [get] on the same
    key, returns exactly that payload, and a [put] into a cache that
    accepts writes does store; [get] on a key that no [put] was ever
    called on returns [NotFound]. *)
Theorem C7_cache_round_trip :
  (∀ (d : Core.Disk) k p now,
     (Core.put k p now d).1 = Core.Success →
     Core.get k (Core.put k p now d).2 = Core.Found p)
  ∧ (∀ (d : Core.Disk) k p now,
       Core.writable d = true →
       (Core.put k p now d).1 = Core.Success
       ∧ Core.get k (Core.put k p now d).2 = Core.Found p)
  ∧ (∀ accepts (ops : list (Core.Key * Core.Payload * nat)) k,
       k ∉ ops.*1.*1 →
       Core.get k (Core.putAll ops (Core.emptyDisk accepts)) = Core.NotFound).
Proof.
  assert (∀ (d : Core.Disk) k p now,
            (Core.put k p now d).1 = Core.Success →
            Core.get k (Core.put k p now d).2 = Core.Found p) as Hround.
  { intros d k p now. unfold Core.put, Core.get.
    destruct (Core.writable d); simpl; [|done].
    intros _. by rewrite lookup_insert_eq. }
  split; [exact Hround|]. split.
  - intros d k p now Hw. split; [by apply put_writable|].
    by apply Hround, put_writable.
  - intros accepts ops k Hk. by rewrite putAll_other.
Qed.

Lemma C7_witness :
  Core.get scenarioKey
    (Core.put scenarioKey scenarioPayload 0 (Core.emptyDisk true)).2
  = Core.Found scenarioPayload
  ∧ Core.get scenarioKey
      (Core.putAll [(Core.CensusKey "0003410379" 2015, scenarioPayload, 0%nat)]
                   (Core.emptyDisk true))
    = Core.NotFound.
Proof.
  destruct C7_cache_round_trip as (Hround & _ & Hmiss). split.
  - apply Hround. reflexivity.
  - apply Hmiss. apply (bool_decide_unpack _). vm_compute. exact I.
Defined.

(** ** The provider clients *)

Section ClientFacts.
Variable upstream : nat → Core.Key → Core.Response.

Lemma liveFetch_exhausted {A : Type} (normalize : Core.Payload → option A)
    (attempts delay : nat) (k : Core.Key) (w : Core.World) :
  (∀ i, (i < attempts)%nat →
        Core.attemptFails normalize (upstream (Core.fetchCounter w + i)%nat k)) →
  ∃ w', Core.liveFetch upstream normalize attempts delay k w = (None, w')
      ∧ Core.fetchCounter w' = (Core.fetchCounter w + attempts)%nat.
Proof.
  revert delay w. induction attempts as [|n IH]; intros delay w Hfail; simpl.
  - exists w. split; [done|lia].
  - pose proof (Hfail 0%nat ltac:(lia)) as H0.
    rewrite Nat.add_0_r in H0.
    assert (∀ w1, Core.fetchCounter w1 = S (Core.fetchCounter w) →
              ∃ w', Core.liveFetch upstream normalize n (delay + (delay + 0)) k w1 = (None, w')
                  ∧ Core.fetchCounter w' = (Core.fetchCounter w + S n)%nat) as Hrest.
    { intros w1 Hw1. destruct (IH (delay + (delay + 0))%nat w1) as (w' & Hw' & Hc).
      - intros i Hi. rewrite Hw1.
        replace (S (Core.fetchCounter w) + i)%nat
          with (Core.fetchCounter w + S i)%nat by lia.
        apply Hfail. lia.
      - exists w'. split; [done|]. rewrite Hc, Hw1. lia. }
    destruct (upstream (Core.fetchCounter w) k) as [body| | |]; simpl in *;
      rewrite ?H0; by apply Hrest.
Qed.
End ClientFacts.

(** The static fallback keeps exactly the records of the requested year. *)
Lemma staticFor_filter (staticDataset : list Core.PopulationRecord) (year : Z) :
  Core.staticFor staticDataset year
  = filter (λ r, Core.pr_year r = year) staticDataset.
Proof.
  unfold Core.staticFor.
  induction staticDataset as [|r l IH]; simpl; [done|].
  rewrite filter_cons, <- IH.
  case_bool_decide.
  - by rewrite decide_True.
  - by rewrite decide_False.
Qed.

(** C5.  Without the real-estate key, [fetchTransactions] answers any
    municipality code and year range with the empty sequence and no
    error, and leaves the process state as it was: no upstream request is
    issued, so a fetch counter at zero stays at zero. *)
Theorem C5_fetchTransactions_without_key
    (upstream : nat → Core.Key → Core.Response)
    (normalizeRealEstate : Core.Payload → option (list Core.RealEstateTransaction))
    (creds : Core.CredentialAvailability) (code : Core.MunicipalityCode)
    (yearFrom yearTo : Z) (w : Core.World) :
  Core.realEstateKeyPresent creds = false →
  let run :=
    Core.fetchTransactions upstream normalizeRealEstate creds code yearFrom yearTo w in
  (∃ r, run.1 = Core.Ok r ∧ Core.records r = [])
  ∧ run.2 = w
  ∧ (Core.fetchCounter w = 0%nat → Core.fetchCounter run.2 = 0%nat).
Proof.
  intros Hkey. simpl. unfold Core.fetchTransactions. rewrite Hkey. simpl.
  split; [by eexists|]. by split.
Qed.

Lemma C5_witness :
  let run :=
    Core.fetchTransactions alwaysHttp500 (λ _, None)
      {| Core.censusKeyPresent := true; Core.realEstateKeyPresent := false |}
      "13101" 2015 2020 startWorld in
  (∃ r, run.1 = Core.Ok r ∧ Core.records r = [])
  ∧ run.2 = startWorld
  ∧ (Core.fetchCounter startWorld = 0%nat → Core.fetchCounter run.2 = 0%nat).
Proof.
  apply (C5_fetchTransactions_without_key alwaysHttp500 (λ _, None)
           {| Core.censusKeyPresent := true; Core.realEstateKeyPresent := false |}
           "13101" 2015 2020 startWorld).
  reflexivity.
Defined.

(** C6.  For a supported year, when the census key is absent, or when
    every attempt of the retry policy fails (a failure status, a network
    failure, a timeout or a payload that does not normalize),
    [fetchPopulation] returns no error but, with the degraded indicator
    set, the bundled static dataset filtered to the year: the records of
    the dataset whose year is the requested one, all of them, in the
    dataset's order, and no other record. *)
Theorem C6_fetchPopulation_fallback
    (upstream : nat → Core.Key → Core.Response)
    (supportedYears : list Z) (tableId : string)
    (staticDataset : list Core.PopulationRecord)
    (normalizeCensus : Core.Payload → option (list Core.PopulationRecord))
    (creds : Core.CredentialAvailability) (year : Z) (w : Core.World) :
  year ∈ supportedYears →
  Core.censusKeyPresent creds = false
  ∨ (∀ i, (i < Core.maxAttempts)%nat →
       Core.attemptFails normalizeCensus
         (upstream (Core.fetchCounter w + i)%nat (Core.CensusKey tableId year))) →
  ∃ records,
    (Core.fetchPopulation upstream supportedYears tableId staticDataset
       normalizeCensus creds year w).1
    = Core.Ok {| Core.records := records; Core.degraded := true |}
    ∧ records = filter (λ r, Core.pr_year r = year) staticDataset
    ∧ ∀ r, r ∈ records ↔ r ∈ staticDataset ∧ Core.pr_year r = year.
Proof.
  intros Hyear Hcase.
  exists (filter (λ r, Core.pr_year r = year) staticDataset).
  split; [|split; [done|]].
  - rewrite <- staticFor_filter. unfold Core.fetchPopulation.
    rewrite bool_decide_eq_true_2 by done.
    destruct (Core.censusKeyPresent creds) eqn:Hkey; [|done].
    destruct Hcase as [?|Hfail]; [done|].
    destruct (liveFetch_exhausted upstream normalizeCensus Core.maxAttempts 1
                (Core.CensusKey tableId year) w Hfail) as (w' & -> & _).
    done.
  - intros r. rewrite list_elem_of_filter. tauto.
Qed.

Lemma C6_witness :
  ∃ records,
    (Core.fetchPopulation alwaysHttp500 censusYears "0003410379" bundledDataset
       (λ _, None)
       {| Core.censusKeyPresent := true; Core.realEstateKeyPresent := true |}
       2020 startWorld).1
    = Core.Ok {| Core.records := records; Core.degraded := true |}
    ∧ records = filter (λ r, Core.pr_year r = 2020) bundledDataset
    ∧ ∀ r, r ∈ records ↔ r ∈ bundledDataset ∧ Core.pr_year r = 2020.
Proof.
  apply (C6_fetchPopulation_fallback alwaysHttp500 censusYears "0003410379"
           bundledDataset (λ _, None)
           {| Core.censusKeyPresent := true; Core.realEstateKeyPresent := true |}
           2020 startWorld).
  - apply (bool_decide_unpack _). vm_compute. exact I.
  - right. intros i _. exact I.
Defined.

(** ** The yearly summaries *)

Section AggregatorFacts.
Variable yearOfTradeDate : string → Z.

Local Abbreviation yearOf := (Core.yearOf yearOfTradeDate).
Local Abbreviation yearGroup := (Core.yearGroup yearOfTradeDate).
Local Abbreviation yearsPresent := (Core.yearsPresent yearOfTradeDate).









End AggregatorFacts.

(** ** Witnesses and worked inputs *)

Lemma C1_witness :
  Sorted Z.le
    (combinedYears (CombinedChart.combinedData scenarioPopulation (Some scenarioRealEstate2010)))
  ∧ combinedYears (CombinedChart.combinedData scenarioPopulation (Some scenarioRealEstate2010))
    = [2010; 2015; 2020].
Proof.
  split.
  - apply (C1_combinedData_union_sorted scenarioPopulation (Some scenarioRealEstate2010)).
  - reflexivity.
Defined.

Example summarize_scenario :
  Core.summarize leadingYear scenarioFilings "13101"
  = [ {| Core.code := "13101"; Core.year := 2015; Core.transactionCount := 2;
         Core.avgUnitPrice := None; Core.minUnitPrice := None;
         Core.maxUnitPrice := None |};
      {| Core.code := "13101"; Core.year := 2016; Core.transactionCount := 3;
         Core.avgUnitPrice := Some 2; Core.minUnitPrice := Some 2;
         Core.maxUnitPrice := Some 3 |} ].
Proof. vm_compute. reflexivity. Qed.


Example filteredMunicipalities_by_name :
  MunicipalitySearch.filteredMunicipalities JS.asciiToLowerCase
    scenarioMunicipalities (JS.lit "CH")
  = take 2 scenarioMunicipalities.
Proof. vm_compute. reflexivity. Qed.

Example filteredMunicipalities_by_code :
  MunicipalitySearch.filteredMunicipalities JS.asciiToLowerCase
    scenarioMunicipalities (JS.lit "271")
  = drop 2 scenarioMunicipalities.
Proof. vm_compute. reflexivity. Qed.

Lemma C8_witness :
  (List.length (MunicipalitySearch.filteredMunicipalities JS.asciiToLowerCase
                  scenarioMunicipalities (JS.lit "CH")) ≤ 50)%nat
  ∧ ∀ m,
      m ∈ MunicipalitySearch.filteredMunicipalities JS.asciiToLowerCase
            scenarioMunicipalities (JS.lit "CH") →
      occursIn (JS.asciiToLowerCase (JS.lit "CH"))
               (JS.asciiToLowerCase (Population.item_municipality m))
      ∨ occursIn (JS.asciiToLowerCase (JS.lit "CH"))
                 (JS.asciiToLowerCase (Population.item_prefecture m))
      ∨ occursIn (JS.lit "CH") (Population.item_code m).
Proof.
  destruct (C8_filteredMunicipalities_bounded_matching JS.asciiToLowerCase
              scenarioMunicipalities (JS.lit "CH")) as [Hlen Hmatch].
  split; [exact Hlen|]. apply Hmatch. discriminate.
Defined.

Example handleSliderChange_tie :
  TimeSlider.handleSliderChange [2020; 2010; 2000] 2015 = JS.Value 2020.
Proof. reflexivity. Qed.

Example handleSliderChange_empty :
  TimeSlider.handleSliderChange [] 2015 = JS.TypeError.
Proof. reflexivity. Qed.

(** Three failing attempts are three requests; the answer is the
    bundled data of the year. *)
Example fetchPopulation_http500 :
  let run :=
    Core.fetchPopulation alwaysHttp500 censusYears "0003410379" bundledDataset
      (λ _, None)
      {| Core.censusKeyPresent := true; Core.realEstateKeyPresent := true |}
      2020 startWorld in
  run.1 = Core.Ok {| Core.records := drop 1 bundledDataset; Core.degraded := true |}
  ∧ Core.fetchCounter run.2 = 3%nat
  ∧ Core.clock run.2 = 7%nat.
Proof. vm_compute. done. Qed.

Example fetchPopulation_invalid_year :
  (Core.fetchPopulation alwaysHttp500 censusYears "0003410379" bundledDataset
     (λ _, None)
     {| Core.censusKeyPresent := true; Core.realEstateKeyPresent := true |}
     2021 startWorld).1
  = Core.Err Core.InvalidYear.
Proof. vm_compute. reflexivity. Qed.

(** With the key, a two-year window over an empty cache issues requests. *)
Example fetchTransactions_with_key :
  let run :=
    Core.fetchTransactions (λ _ _, Core.HttpOk scenarioPayload) (λ _, Some [])
      {| Core.censusKeyPresent := true; Core.realEstateKeyPresent := true |}
      "13101" 2015 2016 startWorld in
  run.1 = Core.Ok {| Core.records := []; Core.degraded := false |}
  ∧ Core.fetchCounter run.2 = 2%nat
  ∧ Core.get (Core.RealEstateKey "13101" 2016) (Core.disk run.2)
    = Core.Found scenarioPayload.
Proof. vm_compute. done. Qed.

Example roundHalfEven_ties :
  Core.roundHalfEven 3 2 = 2 ∧ Core.roundHalfEven 5 2 = 2 ∧ Core.roundHalfEven 7 2 = 4.
Proof. vm_compute. done. Qed.

(** * Further properties of the components *)

(** ** More on the join *)

Section JoinMore.
Import CombinedChart.

Lemma filter_snoc {A : Type} (P : A → Prop) `{∀ x, Decision (P x)}
    (l : list A) (x : A) :
  filter P (l ++ [x]) = filter P l ++ (if decide (P x) then [x] else []).
Proof. by rewrite filter_app. Qed.

Lemma foldl_addPopulation_last l m y :
  y ∈ Population.year <$> l →
  ∃ d, list.last (filter (λ d, Population.year d = y) l) = Some d
     ∧ JS.get y (foldl addPopulation m l)
       = Some {| year := y; population := Some (Population.population d);
                 avg_unit_price := None; transaction_count := None |}.
Proof.
  induction l as [|d l IH] using rev_ind; [by rewrite elem_of_nil|].
  rewrite fmap_app, elem_of_app, foldl_snoc, filter_snoc. simpl.
  rewrite list_elem_of_singleton. intros Hin.
  destruct (decide (Population.year d = y)) as [Heq|Hne].
  - exists d. split; [by rewrite last_snoc|].
    unfold addPopulation. rewrite Heq. apply get_set_eq.
  - destruct Hin as [Hin|Hin]; [|congruence].
    destruct (IH Hin) as (d' & Hd' & Hget).
    exists d'. split; [by rewrite app_nil_r|].
    unfold addPopulation at 1. by rewrite get_set_ne.
Qed.

Lemma foldl_addRealEstate_last l m y :
  y ∈ RealEstate.year <$> l →
  let base :=
    default {| year := y; population := None;
               avg_unit_price := None; transaction_count := None |}
            (JS.get y m) in
  ∃ d, list.last (filter (λ d, RealEstate.year d = y) l) = Some d
     ∧ JS.get y (foldl addRealEstate m l)
       = Some {| year := year base; population := population base;
                 avg_unit_price := Some (RealEstate.avg_unit_price d);
                 transaction_count := Some (RealEstate.transaction_count d) |}.
Proof.
  simpl.
  induction l as [|d l IH] using rev_ind; [by rewrite elem_of_nil|].
  rewrite fmap_app, elem_of_app, foldl_snoc, filter_snoc. simpl.
  rewrite list_elem_of_singleton. intros Hin.
  destruct (decide (RealEstate.year d = y)) as [Heq|Hne].
  - exists d. split; [by rewrite last_snoc|].
    unfold addRealEstate at 1. rewrite Heq, get_set_eq.
    destruct (decide (y ∈ RealEstate.year <$> l)) as [Hl|Hl].
    + destruct (IH Hl) as (d' & _ & ->). done.
    + by rewrite foldl_addRealEstate_other.
  - destruct Hin as [Hin|Hin]; [|congruence].
    destruct (IH Hin) as (d' & Hd' & Hget).
    exists d'. split; [by rewrite app_nil_r|].
    unfold addRealEstate at 1. by rewrite get_set_ne.
Qed.

(** A year that both inputs have yields exactly one joined record; it
    carries the population of the last population record of that year
    and the two real-estate fields of the last real-estate record of
    that year. *)
Theorem combinedData_shared_year
    (pop : Population.MunicipalityTimeSeries)
    (re : option RealEstate.RealEstateTimeSeries) (y : Z) :
  y ∈ populationYears pop → y ∈ realEstateYears re →
  ∃ dp r dr,
    re = Some r
    ∧ list.last (filter (λ d, Population.year d = y) (Population.data pop)) = Some dp
    ∧ list.last (filter (λ d, RealEstate.year d = y) (RealEstate.data r)) = Some dr
    ∧ filter (λ c, year c = y) (combinedData pop re)
      = [ {| year := y;
             population := Some (Population.population dp);
             avg_unit_price := Some (RealEstate.avg_unit_price dr);
             transaction_count := Some (RealEstate.transaction_count dr) |} ].
Proof.
  intros Hpop Hre. destruct re as [r|]; [|by apply elem_of_nil in Hre].
  destruct (foldl_addPopulation_last (Population.data pop) JS.empty y Hpop)
    as (dp & Hdp & Hgetp).
  destruct (foldl_addRealEstate_last (RealEstate.data r)
              (foldl addPopulation JS.empty (Population.data pop)) y Hre)
    as (dr & Hdr & Hgetr).
  exists dp, r, dr. repeat (split; [done|]).
  apply combinedData_filter. unfold dataMapOf.
  rewrite Hgetr, Hgetp. done.
Qed.

Lemma population_only_records
    (pop : Population.MunicipalityTimeSeries)
    (re : option RealEstate.RealEstateTimeSeries) (c : Combined) :
  realEstateYears re = [] →
  c ∈ combinedData pop re →
  avg_unit_price c = None ∧ transaction_count c = None
  ∧ ∃ d, d ∈ Population.data pop
       ∧ year c = Population.year d
       ∧ population c = Some (Population.population d).
Proof.
  intros Hre Hc. unfold combinedData in Hc.
  rewrite sort_Permutation in Hc.
  pose proof (dataMapOf_ok pop re) as Hok.
  apply list_elem_of_fmap in Hc as ([k c'] & -> & Hin). simpl.
  pose proof Hok as [Hnd _].
  pose proof (elem_get_Some _ _ _ Hnd Hin) as Hget.
  assert (k ∈ populationYears pop) as Hk.
  { assert (k ∈ JS.keys (dataMapOf pop re)) as Hkeys
      by (apply list_elem_of_fmap; by exists (k, c')).
    apply dataMapOf_keys in Hkeys as [?|Hkre]; [done|].
    rewrite Hre in Hkre. by apply elem_of_nil in Hkre. }
  assert (dataMapOf pop re = foldl addPopulation JS.empty (Population.data pop))
    as Hmap.
  { unfold dataMapOf. destruct re as [r|]; [|done].
    simpl in Hre. apply fmap_nil_inv in Hre. by rewrite Hre. }
  rewrite Hmap in Hget.
  destruct (foldl_addPopulation_get (Population.data pop) JS.empty k Hk)
    as (d & Hd & Hy & Hget').
  rewrite Hget' in Hget. injection Hget as <-. simpl.
  split; [done|]. split; [done|]. by exists d.
Qed.

(** Without real-estate records every joined record is a population
    record: the real-estate fields are absent, and year and population
    are those of a record of the series. *)
Theorem combinedData_population_only
    (pop : Population.MunicipalityTimeSeries)
    (re : option RealEstate.RealEstateTimeSeries) (c : Combined) :
  realEstateYears re = [] →
  c ∈ combinedData pop re →
  avg_unit_price c = None ∧ transaction_count c = None
  ∧ ∃ d, d ∈ Population.data pop
       ∧ year c = Population.year d
       ∧ population c = Some (Population.population d).
Proof. apply population_only_records. Qed.

Lemma set_fresh {K V : Type} `{EqDecision K} (m : JS.Map K V) (k : K) (v : V) :
  k ∉ JS.keys m → JS.set k v m = m ++ [(k, v)].
Proof.
  unfold JS.keys. induction m as [|[k' v'] m IH]; simpl; [done|].
  rewrite not_elem_of_cons. intros [Hne Hnin].
  rewrite decide_False by done. by rewrite IH.
Qed.

Lemma foldl_addPopulation_fresh l m :
  NoDup (Population.year <$> l) →
  (∀ y, y ∈ Population.year <$> l → y ∉ JS.keys m) →
  foldl addPopulation m l = m ++ ((λ d, (Population.year d, populationOnly d)) <$> l).
Proof.
  revert m. induction l as [|d l IH]; intros m Hnd Hfresh; simpl.
  - by rewrite app_nil_r.
  - rewrite fmap_cons in Hnd. apply NoDup_cons in Hnd as [Hd Hnd].
    unfold addPopulation at 2. rewrite set_fresh by (apply Hfresh; left).
    rewrite IH; [by rewrite <- app_assoc|done|].
    intros y Hy. unfold JS.keys. rewrite fmap_app, elem_of_app.
    intros [Hin|Hin].
    + apply (Hfresh y); [by right|done].
    + simpl in Hin. apply list_elem_of_singleton in Hin. congruence.
Qed.

Lemma insert_head {A : Type} (compareFn : A → A → Z) (x : A) (l : list A) :
  HdRel (λ a b, compareFn a b ≤ 0) x l → JS.insert compareFn x l = x :: l.
Proof.
  destruct 1 as [|y l Hxy]; simpl; [done|].
  by rewrite bool_decide_eq_true_2.
Qed.

Lemma sort_ascending {A : Type} (compareFn : A → A → Z) (l : list A) :
  Sorted (λ a b, compareFn a b ≤ 0) l → JS.sort compareFn l = l.
Proof.
  induction 1 as [|x l Hl IH Hhd]; simpl; [done|].
  rewrite IH. by apply insert_head.
Qed.

Lemma ascending_NoDup (l : list Z) : Sorted Z.lt l → NoDup l.
Proof.
  intros Hs%Sorted_StronglySorted; [|intros ???; lia].
  induction Hs as [|x l Hl IH Hx]; constructor; [|done].
  intros Hin. rewrite Forall_forall in Hx. specialize (Hx _ Hin). lia.
Qed.

Lemma populationOnly_ascending (l : list Population.YearlyPopulation) :
  Sorted Z.lt (Population.year <$> l) →
  Sorted (λ a b, year a - year b ≤ 0) (populationOnly <$> l).
Proof.
  induction l as [|d l IH]; [constructor|].
  rewrite !fmap_cons. intros [Hl Hhd]%Sorted_inv.
  constructor; [by apply IH|].
  destruct l as [|d' l]; constructor. simpl.
  apply HdRel_inv in Hhd. lia.
Qed.

Lemma ascending_input_unchanged
    (pop : Population.MunicipalityTimeSeries)
    (re : option RealEstate.RealEstateTimeSeries) :
  realEstateYears re = [] →
  Sorted Z.lt (populationYears pop) →
  combinedData pop re = populationOnly <$> Population.data pop.
Proof.
  intros Hre Hasc.
  assert (dataMapOf pop re = foldl addPopulation JS.empty (Population.data pop))
    as Hmap.
  { unfold dataMapOf. destruct re as [r|]; [|done].
    simpl in Hre. apply fmap_nil_inv in Hre. by rewrite Hre. }
  unfold combinedData. rewrite Hmap.
  rewrite foldl_addPopulation_fresh;
    [|by apply ascending_NoDup|intros ? _; apply not_elem_of_nil].
  unfold JS.values, JS.empty. simpl. rewrite <- list_fmap_compose.
  by apply sort_ascending, populationOnly_ascending.
Qed.

(** When the population years already ascend strictly and there are no
    real-estate records, the join lists the population records one for
    one, in their order. *)
Theorem combinedData_ascending_input
    (pop : Population.MunicipalityTimeSeries)
    (re : option RealEstate.RealEstateTimeSeries) :
  realEstateYears re = [] →
  Sorted Z.lt (populationYears pop) →
  combinedData pop re = populationOnly <$> Population.data pop.
Proof. apply ascending_input_unchanged. Qed.
End JoinMore.

(** ** The price change and the tables of changes *)

Lemma index_pred {A : Type} (l : list A) (j : nat) :
  JS.index l (Z.of_nat (S j) - 1) = l !! j.
Proof.
  unfold JS.index. rewrite bool_decide_eq_true_2 by lia.
  f_equal. lia.
Qed.

(** [priceChange] never throws.  It is [null] exactly for a series that
    is [null] or has fewer than two records; otherwise it holds the
    first and the last record of the series and the difference of their
    average unit prices. *)
Theorem priceChange_guarded (re : option RealEstate.RealEstateTimeSeries) :
  CombinedChart.priceChange re ≠ JS.TypeError
  ∧ (CombinedChart.priceChange re = JS.Value None
     ↔ (List.length (realEstateRecords re) < 2)%nat)
  ∧ (∀ pc, CombinedChart.priceChange re = JS.Value (Some pc) →
       head (realEstateRecords re) = Some (CombinedChart.first pc)
       ∧ list.last (realEstateRecords re) = Some (CombinedChart.last pc)
       ∧ CombinedChart.change pc
         = RealEstate.avg_unit_price (CombinedChart.last pc)
           - RealEstate.avg_unit_price (CombinedChart.first pc)).
Proof.
  unfold CombinedChart.priceChange, realEstateRecords.
  destruct re as [r|]; [|by repeat split; simpl; try lia].
  destruct (RealEstate.data r) as [|f data] eqn:Hdata.
  { rewrite bool_decide_eq_true_2 by (unfold JS.length; simpl; lia).
    repeat split; simpl; try done; lia. }
  destruct (index_last (f :: data) ltac:(done)) as (l & Hl & Hlast).
  rewrite Hl, index_first. unfold JS.length. simpl List.length.
  case_bool_decide as Hlen.
  - repeat split; try done. lia.
  - split; [done|]. split.
    + split; [done|]. lia.
    + intros pc [= <-]. simpl. by rewrite Hlast.
Qed.

Section Tables.
Implicit Types (l : list Population.YearlyPopulation).

(** The cell of row [i], spelled out by row. *)
Lemma diff_cell l i d :
  l !! i = Some d →
  PopulationChart.diff l i d
  = JS.Value
      match i with
      | O => None
      | S j =>
          prev ← l !! j;
          if bool_decide (Population.population prev = 0) then None
          else Some (Population.population d - Population.population prev)
      end.
Proof.
  intros Hi. unfold PopulationChart.diff. destruct i as [|j].
  - by rewrite bool_decide_eq_false_2 by lia.
  - rewrite bool_decide_eq_true_2 by lia. rewrite index_pred.
    assert (is_Some (l !! j)) as [prev Hprev].
    { apply lookup_lt_is_Some. apply lookup_lt_Some in Hi. lia. }
    rewrite Hprev. simpl. unfold JS.truthy.
    destruct (Z.eqb_spec (Population.population prev) 0) as [H0|H0]; simpl.
    + by rewrite bool_decide_eq_true_2.
    + by rewrite bool_decide_eq_false_2.
Qed.

Lemma diff_cell_S l j d prev :
  l !! S j = Some d → l !! j = Some prev →
  PopulationChart.diff l (S j) d
  = JS.Value (if bool_decide (Population.population prev = 0) then None
              else Some (Population.population d - Population.population prev)).
Proof. intros Hd Hprev. rewrite diff_cell by done. by rewrite Hprev. Qed.

Lemma diffs_snoc l d :
  imap (PopulationChart.diff (l ++ [d])) (l ++ [d])
  = imap (PopulationChart.diff l) l
    ++ [PopulationChart.diff (l ++ [d]) (List.length l) d].
Proof.
  rewrite imap_app. simpl. rewrite Nat.add_0_r. f_equal.
  apply imap_ext. intros i x Hi.
  rewrite !diff_cell; [|done|by apply lookup_app_l_Some].
  destruct i as [|j]; [done|].
  rewrite lookup_app_l; [done|]. apply lookup_lt_Some in Hi. lia.
Qed.

Lemma shownTotal_snoc cells cell :
  shownTotal (cells ++ [cell])
  = shownTotal cells + shownTotal [cell].
Proof.
  induction cells as [|c cells IH]; simpl; [lia|].
  unfold shownTotal in *. simpl in *.
  destruct c as [[z|]|]; rewrite ?IH; lia.
Qed.

Lemma diffs_total (f : Population.YearlyPopulation) l :
  Forall (λ d, Population.population d ≠ 0) (f :: l) →
  ∃ last, list.last (f :: l) = Some last
        ∧ shownTotal (imap (PopulationChart.diff (f :: l)) (f :: l))
          = Population.population last - Population.population f.
Proof.
  induction l as [|d l IH] using rev_ind; intros Hnz.
  - exists f. split; [done|]. simpl. unfold PopulationChart.diff. simpl. lia.
  - rewrite app_comm_cons in *. apply Forall_app in Hnz as [Hnz _].
    destruct (IH Hnz) as (prev & Hprev & Htotal).
    exists d. split; [by rewrite last_snoc|].
    rewrite diffs_snoc, shownTotal_snoc, Htotal.
    rewrite last_lookup in Hprev. simpl in Hprev.
    simpl List.length.
    rewrite (diff_cell_S _ (List.length l) d prev);
      [|by rewrite list_lookup_middle|by apply lookup_app_l_Some].
    rewrite Forall_forall in Hnz.
    rewrite bool_decide_eq_false_2
      by (eapply Hnz, list_elem_of_lookup_2, Hprev).
    simpl. lia.
Qed.
End Tables.

(** No cell of the population chart's change column throws.  The first
    row's cell is [null]; a later row's cell is the row's population
    minus the previous row's, or [null] when the previous row's
    population is 0. *)
Theorem populationChart_diff_cells
    (data : Population.MunicipalityTimeSeries) (i : nat)
    (cell : JS.Outcome (option Z)) :
  PopulationChart.diffs data !! i = Some cell →
  ∃ d, Population.data data !! i = Some d
     ∧ match i with
       | O => cell = JS.Value None
       | S j =>
           ∃ prev, Population.data data !! j = Some prev
                 ∧ cell = JS.Value
                     (if bool_decide (Population.population prev = 0) then None
                      else Some (Population.population d
                                 - Population.population prev))
       end.
Proof.
  unfold PopulationChart.diffs. rewrite list_lookup_imap.
  destruct (Population.data data !! i) as [d|] eqn:Hd; [|done].
  simpl. intros [= <-]. exists d. split; [done|].
  destruct i as [|j]; [by rewrite diff_cell|].
  assert (is_Some (Population.data data !! j)) as [prev Hprev].
  { apply lookup_lt_is_Some. apply lookup_lt_Some in Hd. lia. }
  exists prev. split; [done|]. by apply diff_cell_S.
Qed.

Lemma populationChart_diff_cells_witness :
  ∃ d, Population.data scenarioPopulation !! 1%nat = Some d
     ∧ ∃ prev, Population.data scenarioPopulation !! 0%nat = Some prev
             ∧ JS.Value (Some (-5000))
               = JS.Value
                   (if bool_decide (Population.population prev = 0) then None
                    else Some (Population.population d
                               - Population.population prev)).
Proof.
  apply (populationChart_diff_cells scenarioPopulation 1 (JS.Value (Some (-5000)))).
  reflexivity.
Defined.

Lemma populationChart_diffs_add_up_aux (data : Population.MunicipalityTimeSeries) :
  Population.data data ≠ [] →
  Forall (λ d, Population.population d ≠ 0) (Population.data data) →
  CombinedChart.popChange data
  = JS.Value (shownTotal (imap (PopulationChart.diff (Population.data data))
                               (Population.data data))).
Proof.
  intros Hne Hnz. unfold CombinedChart.popChange.
  destruct (index_last _ Hne) as (l & Hl & Hlast). rewrite Hl.
  destruct (Population.data data) as [|f rest]; [done|].
  rewrite index_first.
  destruct (diffs_total f rest Hnz) as (l' & Hl' & ->).
  congruence.
Qed.

(** When no population of the series is 0, the changes the population
    chart's table shows add up to the headline [change]. *)
Theorem populationChart_diffs_add_up (data : Population.MunicipalityTimeSeries) :
  Population.data data ≠ [] →
  Forall (λ d, Population.population d ≠ 0) (Population.data data) →
  PopulationChart.change data
  = JS.Value (shownTotal (PopulationChart.diffs data)).
Proof.
  intros Hne Hnz.
  change (PopulationChart.change data) with (CombinedChart.popChange data).
  by apply populationChart_diffs_add_up_aux.
Qed.

Lemma populationChart_diffs_add_up_witness :
  PopulationChart.change scenarioPopulation
  = JS.Value (shownTotal (PopulationChart.diffs scenarioPopulation)).
Proof.
  apply (populationChart_diffs_add_up scenarioPopulation).
  - discriminate.
  - repeat constructor; discriminate.
Defined.

Lemma index_fmap {A B : Type} (f : A → B) (l : list A) (z : Z) :
  JS.index (f <$> l) z = f <$> JS.index l z.
Proof.
  unfold JS.index. case_bool_decide; [|done]. apply list_lookup_fmap.
Qed.

Lemma popDiff_populationOnly (l : list Population.YearlyPopulation) i d :
  Population.population d ≠ 0 →
  CombinedChart.popDiff (populationOnly <$> l) i (populationOnly d)
  = PopulationChart.diff l i d.
Proof.
  intros Hd. unfold CombinedChart.popDiff, PopulationChart.diff.
  case_bool_decide; [|done].
  rewrite index_fmap. destruct (JS.index l (Z.of_nat i - 1)) as [prev|]; [|done].
  simpl. destruct (JS.truthy (Population.population prev)); [|done].
  unfold JS.truthy. destruct (Z.eqb_spec (Population.population d) 0); done.
Qed.

(** With no real-estate records, strictly ascending years and no
    population of 0, the changes the combined chart's table shows add up
    to the headline [popChange]. *)
Theorem combinedChart_popDiffs_add_up
    (pop : Population.MunicipalityTimeSeries)
    (re : option RealEstate.RealEstateTimeSeries) :
  Population.data pop ≠ [] →
  realEstateYears re = [] →
  Sorted Z.lt (populationYears pop) →
  Forall (λ d, Population.population d ≠ 0) (Population.data pop) →
  CombinedChart.popChange pop
  = JS.Value (shownTotal (CombinedChart.popDiffs (CombinedChart.combinedData pop re))).
Proof.
  intros Hne Hre Hasc Hnz.
  rewrite ascending_input_unchanged by done.
  unfold CombinedChart.popDiffs. rewrite imap_fmap.
  rewrite (imap_ext _ (PopulationChart.diff (Population.data pop))).
  - by apply (populationChart_diffs_add_up_aux pop).
  - intros i d Hd. simpl. apply popDiff_populationOnly.
    rewrite Forall_forall in Hnz. eapply Hnz, list_elem_of_lookup_2, Hd.
Qed.

(** ** The map's markers *)

(** The marker scale never shrinks as the population grows. *)
Theorem getMarkerScale_monotone (p q : Z) :
  p ≤ q → Map.getMarkerScale p ≤ Map.getMarkerScale q.
Proof.
  intros Hpq. unfold Map.getMarkerScale.
  repeat case_bool_decide; lia.
Qed.

Lemma getMarkerScale_monotone_witness :
  Map.getMarkerScale 150000 ≤ Map.getMarkerScale 2500000.
Proof. apply getMarkerScale_monotone. lia. Defined.

(** Two populations drawn in the same colour are drawn at the same
    scale: the colour bands refine the scale bands. *)
Theorem same_colour_same_scale (p q : Z) :
  Map.getColorByPopulation p = Map.getColorByPopulation q →
  Map.getMarkerScale p = Map.getMarkerScale q.
Proof.
  unfold Map.getColorByPopulation, Map.getMarkerScale.
  repeat case_bool_decide; intros Hc; try done; try lia;
    vm_compute in Hc; discriminate Hc.
Qed.

Lemma same_colour_same_scale_witness :
  Map.getMarkerScale 250000 = Map.getMarkerScale 400000.
Proof. apply same_colour_same_scale. reflexivity. Defined.

(** The colour of a marker is the colour of the first legend entry
    whose label the population satisfies. *)
Theorem legend_matches_marker_colour (population : Z) :
  fst <$> List.find (λ e, inBand e.2 population) App.legend
  = Some (Map.getColorByPopulation population).
Proof.
  unfold Map.getColorByPopulation, App.legend. simpl.
  repeat (case_bool_decide; simpl; [done|]). lia.
Qed.

Lemma digits_not_inherited (key : JS.String) :
  digits key → key ∉ JS.objectPrototype.
Proof.
  intros Hd Hin. unfold JS.objectPrototype in Hin.
  vm_compute fmap in Hin.
  repeat (apply elem_of_cons in Hin as [->|Hin];
          [apply Forall_cons in Hd as [Hd _]; lia|]).
  by apply elem_of_nil in Hin.
Qed.

Lemma getProperty_own {A : Type} (obj : JS.Object A) (key : JS.String) :
  key ∉ JS.objectPrototype →
  match JS.getProperty obj key with
  | JS.Own a => (key, a) ∈ obj
  | JS.Inherited _ => False
  | JS.Undefined => key ∉ obj.*1
  end.
Proof.
  intros Hkey. unfold JS.getProperty.
  destruct (JS.get key (reverse obj)) as [a|] eqn:Hget; simpl.
  - apply get_Some_elem in Hget. by rewrite elem_of_reverse in Hget.
  - rewrite bool_decide_eq_false_2 by done.
    apply get_None in Hget. unfold JS.keys in Hget.
    by rewrite fmap_reverse, elem_of_reverse in Hget.
Qed.

Lemma getProperty_key {A : Type} (obj : JS.Object A) (key : JS.String) :
  key ∈ obj.*1 → ∃ a, JS.getProperty obj key = JS.Own a.
Proof.
  intros Hkey. unfold JS.getProperty.
  destruct (JS.get key (reverse obj)) as [a|] eqn:Hget; [by exists a|].
  apply get_None in Hget. unfold JS.keys in Hget.
  by rewrite fmap_reverse, elem_of_reverse in Hget.
Qed.

Lemma markers_elem (populationData : list Population.MunicipalityPopulation)
    (m : Map.Marker) :
  m ∈ Map.markers populationData →
  Map.item m ∈ populationData
  ∧ Map.hasCoords (Map.item m) = true
  ∧ Map.position m
    = JS.getProperty Map.MUNICIPALITY_COORDS (Population.mp_code (Map.item m)).
Proof.
  unfold Map.markers. intros (item & -> & Hin)%list_elem_of_fmap. simpl.
  apply list_elem_of_In, filter_In in Hin as [Hin Hc].
  by rewrite <- list_elem_of_In in Hin.
Qed.

Lemma markers_items (populationData : list Population.MunicipalityPopulation) :
  Map.item <$> Map.markers populationData
  = List.filter Map.hasCoords populationData.
Proof.
  unfold Map.markers.
  induction (List.filter Map.hasCoords populationData) as [|x xs IH]; [done|].
  rewrite !fmap_cons. simpl. by f_equal.
Qed.

(** For population records whose codes are digit strings, the records
    that get a marker are exactly those whose code is a key of the
    coordinate table, in their order, and every marker is positioned at
    the coordinates the table lists for its code. *)
Theorem markers_have_table_coordinates
    (populationData : list Population.MunicipalityPopulation) :
  Forall (λ item, digits (Population.mp_code item)) populationData →
  Map.item <$> Map.markers populationData
  = filter (λ item, Population.mp_code item ∈ Map.MUNICIPALITY_COORDS.*1)
           populationData
  ∧ ∀ m, m ∈ Map.markers populationData →
      ∃ coords,
        (Population.mp_code (Map.item m), coords) ∈ Map.MUNICIPALITY_COORDS
        ∧ Map.position m = JS.Own coords.
Proof.
  intros Hdigits. split.
  - rewrite markers_items.
    induction Hdigits as [|item l Hd _ IH]; [done|]. simpl.
    pose proof (getProperty_own Map.MUNICIPALITY_COORDS _
                  (digits_not_inherited _ Hd)) as Hown.
    unfold Map.hasCoords at 1.
    destruct (JS.getProperty Map.MUNICIPALITY_COORDS (Population.mp_code item))
      as [coords| |] eqn:Hget; simpl; [|done|].
    + rewrite filter_cons_True; [by rewrite IH|].
      exact (list_elem_of_fmap_2 fst
               (Map.MUNICIPALITY_COORDS : list (JS.String * Map.LatLng)) _ Hown).
    + by rewrite filter_cons_False.
  - intros m (Hin & Hc & ->)%markers_elem.
    rewrite Forall_forall in Hdigits.
    pose proof (getProperty_own Map.MUNICIPALITY_COORDS _
                  (digits_not_inherited _ (Hdigits _ Hin))) as Hown.
    unfold Map.hasCoords in Hc.
    destruct (JS.getProperty Map.MUNICIPALITY_COORDS
                (Population.mp_code (Map.item m))) as [coords| |]; [|done..].
    by exists coords.
Qed.

(** A population record whose code is the name of a member that every
    object inherits passes the coordinate filter all the same; its
    marker's position is that member, not a pair of coordinates. *)
Theorem markers_inherited_name
    (populationData : list Population.MunicipalityPopulation)
    (item : Population.MunicipalityPopulation) :
  item ∈ populationData →
  Population.mp_code item ∈ JS.objectPrototype →
  ∃ m, m ∈ Map.markers populationData
     ∧ Map.item m = item
     ∧ Map.position m = JS.Inherited (Population.mp_code item).
Proof.
  intros Hin Hname.
  assert (JS.getProperty Map.MUNICIPALITY_COORDS (Population.mp_code item)
          = JS.Inherited (Population.mp_code item)) as Hget.
  { unfold JS.getProperty.
    destruct (JS.get (Population.mp_code item) (reverse Map.MUNICIPALITY_COORDS))
      as [coords|] eqn:Hown.
    - exfalso. apply get_Some_elem in Hown. rewrite elem_of_reverse in Hown.
      unfold JS.objectPrototype in Hname. vm_compute fmap in Hname.
      unfold Map.MUNICIPALITY_COORDS in Hown. vm_compute JS.lit in Hown.
      repeat (apply elem_of_cons in Hname as [Hname|Hname];
              [rewrite Hname in Hown;
               repeat (apply elem_of_cons in Hown as [Hown|Hown];
                       [discriminate Hown|]);
               by apply elem_of_nil in Hown|]).
      by apply elem_of_nil in Hname.
    - by rewrite bool_decide_eq_true_2. }
  exists {| Map.item := item;
            Map.position :=
              JS.getProperty Map.MUNICIPALITY_COORDS (Population.mp_code item);
            Map.color := Map.getColorByPopulation (Population.mp_population item);
            Map.scale := Map.getMarkerScale (Population.mp_population item) |}.
  split; [|split; [done|exact Hget]].
  unfold Map.markers. apply list_elem_of_fmap.
  exists item. split; [done|].
  apply list_elem_of_In, filter_In. split; [by apply list_elem_of_In|].
  unfold Map.hasCoords. by rewrite Hget.
Qed.

(** A click on any marker of the map opens its info window: the guard
    in front of the window holds for the clicked record. *)
Theorem marker_click_shows_info
    (populationData : list Population.MunicipalityPopulation) (m : Map.Marker) :
  m ∈ Map.markers populationData →
  Map.infoWindowShown (Map.handleMarkerClick m) = true.
Proof. by intros (_ & Hc & _)%markers_elem. Qed.

(** ** More on the municipality search *)

Lemma filter_sublist {A : Type} (f : A → bool) (l : list A) :
  List.filter f l `sublist_of` l.
Proof.
  induction l as [|x l IH]; simpl; [done|].
  destruct (f x); by constructor.
Qed.

(** The search result lists entries of [municipalities] in their order:
    it is a subsequence of the list. *)
Theorem filteredMunicipalities_sublist
    (toLowerCase : JS.String → JS.String)
    (municipalities : list Population.MunicipalityListItem)
    (searchText : JS.String) :
  MunicipalitySearch.filteredMunicipalities toLowerCase municipalities searchText
  `sublist_of` municipalities.
Proof.
  unfold MunicipalitySearch.filteredMunicipalities, JS.slice0.
  destruct searchText as [|c cs].
  - apply sublist_take.
  - etrans; [apply sublist_take|apply filter_sublist].
Qed.

(** While at most 50 entries match a non-empty search text, the result
    leaves none of them out. *)
Theorem filteredMunicipalities_complete
    (toLowerCase : JS.String → JS.String)
    (municipalities : list Population.MunicipalityListItem)
    (searchText : JS.String) (m : Population.MunicipalityListItem) :
  searchText ≠ [] →
  (List.length (List.filter (MunicipalitySearch.matches toLowerCase searchText)
                            municipalities) ≤ 50)%nat →
  m ∈ municipalities →
  occursIn (toLowerCase searchText) (toLowerCase (Population.item_municipality m))
  ∨ occursIn (toLowerCase searchText) (toLowerCase (Population.item_prefecture m))
  ∨ occursIn searchText (Population.item_code m) →
  m ∈ MunicipalitySearch.filteredMunicipalities toLowerCase municipalities searchText.
Proof.
  intros Hne Hlen Hin Hocc.
  unfold MunicipalitySearch.filteredMunicipalities, JS.slice0.
  destruct searchText as [|c cs]; [done|].
  rewrite take_ge by done.
  apply list_elem_of_In, filter_In. split; [by apply list_elem_of_In|].
  unfold MunicipalitySearch.matches.
  rewrite !orb_true_iff, !includes_occursIn. tauto.
Qed.

Lemma filteredMunicipalities_complete_witness :
  scenarioOsaka
  ∈ MunicipalitySearch.filteredMunicipalities JS.asciiToLowerCase
      scenarioMunicipalities (JS.lit "osa").
Proof.
  apply filteredMunicipalities_complete.
  - discriminate.
  - vm_compute. lia.
  - right. right. left.
  - left. exists [], (JS.lit "ka"). reflexivity.
Defined.

Lemma find_first {A : Type} (f : A → bool) (l : list A) (x : A) :
  List.find f l = Some x →
  f x = true
  ∧ ∃ i, l !! i = Some x ∧ ∀ j y, l !! j = Some y → f y = true → (i ≤ j)%nat.
Proof.
  induction l as [|a l IH]; simpl; [done|].
  destruct (f a) eqn:Ha.
  - intros [= <-]. split; [done|]. exists 0%nat. split; [done|]. intros; lia.
  - intros Hfind. destruct (IH Hfind) as (Hx & i & Hi & Hmin).
    split; [done|]. exists (S i). split; [done|].
    intros [|j] y; simpl.
    + intros [= <-]. congruence.
    + intros Hj Hy. specialize (Hmin j y Hj Hy). lia.
Qed.

Lemma find_exists {A : Type} (f : A → bool) (l : list A) (x : A) :
  x ∈ l → f x = true → is_Some (List.find f l).
Proof.
  intros Hin Hx. destruct (List.find f l) eqn:Hfind; [done|].
  apply list_elem_of_In in Hin.
  pose proof (find_none f l Hfind x Hin). congruence.
Qed.

(** The selected municipality, when there is one, is the earliest entry
    of the list whose code is the selected code, and that code is not
    empty; there is none exactly when no code is selected, the code is
    the empty string, or no entry has the code. *)
Theorem selectedMunicipality_found
    (municipalities : list Population.MunicipalityListItem)
    (selectedCode : option JS.String) :
  (∀ m, MunicipalitySearch.selectedMunicipality municipalities selectedCode = Some m →
     selectedCode = Some (Population.item_code m)
     ∧ Population.item_code m ≠ []
     ∧ ∃ i, municipalities !! i = Some m
          ∧ ∀ j m', municipalities !! j = Some m' →
              Population.item_code m' = Population.item_code m → (i ≤ j)%nat)
  ∧ (MunicipalitySearch.selectedMunicipality municipalities selectedCode = None
     ↔ selectedCode = None ∨ selectedCode = Some []
       ∨ ∀ m, m ∈ municipalities → Some (Population.item_code m) ≠ selectedCode).
Proof.
  unfold MunicipalitySearch.selectedMunicipality, JS.find.
  destruct selectedCode as [[|c cs]|].
  - split; [done|]. split; [by right; left|done].
  - split.
    + intros m (Hm%bool_decide_eq_true & i & Hi & Hmin)%find_first.
      rewrite Hm. split; [done|]. split; [done|]. exists i. split; [done|].
      intros j m' Hj Hc. apply (Hmin j m' Hj). by apply bool_decide_eq_true.
    + split.
      * intros Hnone. right. right. intros m Hin [= Hc].
        apply list_elem_of_In in Hin.
        pose proof (find_none _ _ Hnone m Hin) as Hf.
        by apply bool_decide_eq_false in Hf.
      * intros [?|[?|Hall]]; [done..|].
        destruct (List.find _ municipalities) as [m|] eqn:Hfind; [|done].
        apply find_some in Hfind as [Hin Hm%bool_decide_eq_true].
        exfalso. apply (Hall m); [by apply list_elem_of_In|by rewrite Hm].
  - split; [done|]. split; [by left|done].
Qed.

(** An entry the search result lists can be selected: with its code as
    the selected code, provided the code is not empty, a selected
    municipality with that code is found. *)
Theorem listed_entry_is_selectable
    (toLowerCase : JS.String → JS.String)
    (municipalities : list Population.MunicipalityListItem)
    (searchText : JS.String) (m : Population.MunicipalityListItem) :
  m ∈ MunicipalitySearch.filteredMunicipalities toLowerCase municipalities searchText →
  Population.item_code m ≠ [] →
  ∃ m', MunicipalitySearch.selectedMunicipality municipalities
          (Some (Population.item_code m)) = Some m'
      ∧ Population.item_code m' = Population.item_code m.
Proof.
  intros Hin Hcode.
  assert (m ∈ municipalities) as Hm.
  { eapply elem_of_sublist; [exact Hin|].
    unfold MunicipalitySearch.filteredMunicipalities, JS.slice0.
    destruct searchText as [|c cs].
    - apply sublist_take.
    - etrans; [apply sublist_take|apply filter_sublist]. }
  unfold MunicipalitySearch.selectedMunicipality, JS.find.
  destruct (Population.item_code m) as [|c cs] eqn:Hc; [done|].
  destruct (find_exists
              (λ m0, bool_decide (Population.item_code m0 = c :: cs))
              municipalities m Hm) as [m' Hfind].
  { by apply bool_decide_eq_true. }
  exists m'. split; [done|].
  by apply find_first in Hfind as [Hm'%bool_decide_eq_true _].
Qed.

Lemma listed_entry_is_selectable_witness :
  ∃ m', MunicipalitySearch.selectedMunicipality scenarioMunicipalities
          (Some (JS.lit "27100")) = Some m'
      ∧ Population.item_code m' = JS.lit "27100".
Proof.
  apply (listed_entry_is_selectable JS.asciiToLowerCase scenarioMunicipalities
           (JS.lit "osa") scenarioOsaka).
  - change (scenarioOsaka ∈ [scenarioOsaka]). left.
  - discriminate.
Defined.

(** ** More on the time slider *)

Lemma handleSliderChange_nearest (years : list Z) (value : Z) :
  years ≠ [] →
  ∃ closest i,
    TimeSlider.handleSliderChange years value = JS.Value closest
    ∧ nearestAt value years i closest.
Proof.
  intros Hne. destruct years as [|x rest]; [done|].
  destruct (foldl_pick_nearest value x rest) as [i Hi].
  eexists _, i. split; [reflexivity|exact Hi].
Qed.

(** A slider value that is one of the years selects that year. *)
Theorem handleSliderChange_exact (years : list Z) (value : Z) :
  value ∈ years →
  TimeSlider.handleSliderChange years value = JS.Value value.
Proof.
  intros Hin.
  destruct (handleSliderChange_nearest years value) as (c & i & -> & Hi & Hmin).
  { intros ->. by apply elem_of_nil in Hin. }
  apply list_elem_of_lookup in Hin as [j Hj].
  destruct (Hmin j value Hj) as [Hle _].
  f_equal. lia.
Qed.

Lemma handleSliderChange_exact_witness :
  TimeSlider.handleSliderChange [2000; 2005; 2010; 2015; 2020] 2010 = JS.Value 2010.
Proof.
  apply handleSliderChange_exact. right. right. left.
Defined.

Lemma mathMin_least (x : Z) (rest : list Z) :
  JS.mathMin x rest ∈ x :: rest ∧ ∀ y, y ∈ x :: rest → JS.mathMin x rest ≤ y.
Proof.
  unfold JS.mathMin. induction rest as [|z rest IH] using rev_ind.
  - simpl. split; [left|]. intros y Hy%list_elem_of_singleton. lia.
  - rewrite foldl_snoc. destruct IH as [Hin Hle]. split.
    + destruct (Z.min_spec (foldl Z.min x rest) z) as [[_ ->]|[_ ->]].
      * rewrite app_comm_cons. apply elem_of_app. by left.
      * rewrite app_comm_cons. apply elem_of_app. right. left.
    + intros y. rewrite app_comm_cons, elem_of_app, list_elem_of_singleton.
      intros [Hy| ->]; [specialize (Hle y Hy)|]; lia.
Qed.

Lemma mathMax_greatest (x : Z) (rest : list Z) :
  JS.mathMax x rest ∈ x :: rest ∧ ∀ y, y ∈ x :: rest → y ≤ JS.mathMax x rest.
Proof.
  unfold JS.mathMax. induction rest as [|z rest IH] using rev_ind.
  - simpl. split; [left|]. intros y Hy%list_elem_of_singleton. lia.
  - rewrite foldl_snoc. destruct IH as [Hin Hle]. split.
    + destruct (Z.max_spec (foldl Z.max x rest) z) as [[_ ->]|[_ ->]].
      * rewrite app_comm_cons. apply elem_of_app. right. left.
      * rewrite app_comm_cons. apply elem_of_app. by left.
    + intros y. rewrite app_comm_cons, elem_of_app, list_elem_of_singleton.
      intros [Hy| ->]; [specialize (Hle y Hy)|]; lia.
Qed.

(** The ends of the slider's range are listed years that bound all the
    years, and a slider value at or beyond an end selects that end. *)
Theorem slider_range_clamps (years : list Z) (value lo hi : Z) :
  TimeSlider.minYear years = Some lo →
  TimeSlider.maxYear years = Some hi →
  lo ∈ years ∧ hi ∈ years
  ∧ (∀ y, y ∈ years → lo ≤ y ≤ hi)
  ∧ (value ≤ lo → TimeSlider.handleSliderChange years value = JS.Value lo)
  ∧ (hi ≤ value → TimeSlider.handleSliderChange years value = JS.Value hi).
Proof.
  unfold TimeSlider.minYear, TimeSlider.maxYear.
  destruct years as [|x rest]; [done|]. intros [= <-] [= <-].
  destruct (mathMin_least x rest) as [Hlo Hmin].
  destruct (mathMax_greatest x rest) as [Hhi Hmax].
  split; [done|]. split; [done|]. split; [by split; auto|].
  destruct (handleSliderChange_nearest (x :: rest) value ltac:(done))
    as (c & i & -> & Hi & Hnear).
  assert (c ∈ x :: rest) as Hc by by eapply list_elem_of_lookup_2.
  pose proof (Hmin c Hc). pose proof (Hmax c Hc).
  split; intros Hv; f_equal.
  - apply list_elem_of_lookup in Hlo as [j Hj].
    destruct (Hnear j _ Hj) as [Hle _]. lia.
  - apply list_elem_of_lookup in Hhi as [j Hj].
    destruct (Hnear j _ Hj) as [Hle _]. lia.
Qed.

Lemma slider_range_clamps_witness :
  2000 ∈ [2010; 2000; 2020] ∧ 2020 ∈ [2010; 2000; 2020]
  ∧ (∀ y, y ∈ [2010; 2000; 2020] → 2000 ≤ y ≤ 2020)
  ∧ (1990 ≤ 2000 →
     TimeSlider.handleSliderChange [2010; 2000; 2020] 1990 = JS.Value 2000)
  ∧ (2020 ≤ 1990 →
     TimeSlider.handleSliderChange [2010; 2000; 2020] 1990 = JS.Value 2020).
Proof.
  apply (slider_range_clamps [2010; 2000; 2020] 1990 2000 2020); reflexivity.
Defined.

(** ** The application's state over its events *)

Section AppFacts.
Implicit Types (s : App.State) (e : App.Event).

Lemma runEffects_years prev next :
  usePopulation.availableYears (App.population (App.runEffects prev next))
  = usePopulation.availableYears (App.population next)
  ∧ usePopulation.selectedYear (App.population (App.runEffects prev next))
    = usePopulation.selectedYear (App.population next).
Proof.
  unfold App.runEffects. simpl.
  case_bool_decide; [done|].
  by destruct (usePopulation.selectedYear (App.population next)) eqn:E.
Qed.

(** Before the years have arrived: nothing listed, nothing selected. *)
Let noYears s : Prop :=
  usePopulation.availableYears (App.population s) = []
  ∧ usePopulation.selectedYear (App.population s) = None.

Let listed s : Prop :=
  ∀ y, usePopulation.selectedYear (App.population s) = Some y →
       y ∈ usePopulation.availableYears (App.population s).

Lemma handle_noYears s e :
  isYearsSettled e = false → noYears s → noYears (App.handle e s).
Proof.
  intros He [Hyears Hsel]. unfold noYears.
  destruct e as [o|o|o|c o|o|v|i|c|]; try done; simpl.
  - by destruct o.
  - destruct (usePopulation.loading (App.population s)); [done|].
    by rewrite Hyears.
  - destruct (usePopulation.loading (App.population s)); [done|].
    by rewrite Hyears.
Qed.

Lemma handle_listed s e :
  isYearsSettled e = false → listed s → listed (App.handle e s).
Proof.
  intros He Hs. unfold listed.
  destruct e as [o|o|o|c o|o|v|i|c|]; try done; simpl.
  - by destruct o.
  - destruct (usePopulation.loading (App.population s)); [done|].
    destruct (usePopulation.availableYears (App.population s)) as [|x rest] eqn:Hy;
      [done|].
    destruct (handleSliderChange_nearest (x :: rest) v ltac:(done))
      as (c & i & -> & Hi & _).
    simpl. rewrite Hy. intros y [= <-]. by eapply list_elem_of_lookup_2.
  - destruct (usePopulation.loading (App.population s)); [done|].
    destruct (usePopulation.availableYears (App.population s) !! i) as [y'|] eqn:Hi;
      [|done].
    simpl. intros y [= <-]. by eapply list_elem_of_lookup_2.
Qed.

Lemma handle_years_listed s o :
  noYears s → listed (App.handle (App.YearsSettled o) s).
Proof.
  intros [Hyears Hsel]. unfold listed. simpl.
  destruct o as [[|y ys]|]; simpl; rewrite ?Hsel; try done.
  intros ? [= <-]. left.
Qed.

Lemma step_listed_invariant events s :
  (noYears s ∧ (List.length (List.filter isYearsSettled events) ≤ 1)%nat)
  ∨ (listed s ∧ List.filter isYearsSettled events = []) →
  listed (App.run events s).
Proof.
  unfold App.run. revert s.
  induction events as [|e events IH]; intros s Hs; simpl.
  - destruct Hs as [[[Hy Hsel] _]|[Hs _]]; [|done].
    intros y. by rewrite Hsel.
  - apply IH. unfold App.step.
    destruct (runEffects_years s (App.handle e s)) as [Hyears Hsel].
    simpl in Hs. destruct (isYearsSettled e) eqn:He.
    + destruct Hs as [[Hno Hlen]|[_ ?]]; [|done]. right. split.
      * destruct e; try done.
        unfold listed. rewrite Hyears, Hsel. by apply handle_years_listed.
      * simpl in Hlen. destruct (List.filter isYearsSettled events); [done|].
        simpl in Hlen. lia.
    + destruct Hs as [[Hno Hlen]|[Hl Hnil]].
      * left. split; [|done]. unfold noYears. rewrite Hyears, Hsel.
        by apply handle_noYears.
      * right. split; [|done]. unfold listed. rewrite Hyears, Hsel.
        by apply handle_listed.
Qed.

(** However the user moves the slider and clicks the tick buttons, and
    whatever the requests come back with, the selected year is one of
    the available years, as long as the request for the years is
    answered at most once. *)
Theorem selected_year_is_listed (events : list App.Event) (y : Z) :
  (List.length (List.filter isYearsSettled events) ≤ 1)%nat →
  usePopulation.selectedYear (App.population (App.run events App.initial)) = Some y →
  y ∈ usePopulation.availableYears (App.population (App.run events App.initial)).
Proof.
  intros Hlen. apply (step_listed_invariant events App.initial).
  left. by split.
Qed.

Let together s : Prop :=
  useMunicipalityDetail.selectedCode (App.detail s) = None
  ↔ useMunicipalityDetail.timeSeries (App.detail s) = None.

Lemma step_together s e : together s → together (App.step s e).
Proof.
  unfold together, App.step, App.runEffects. simpl.
  destruct e as [o|o|o|c o|o|v|i|c|]; simpl; try done.
  - by destruct o.
  - by destruct o.
  - destruct (usePopulation.loading (App.population s)); [done|].
    by destruct (TimeSlider.handleSliderChange _ v).
  - destruct (usePopulation.loading (App.population s)); [done|].
    by destruct (usePopulation.availableYears (App.population s) !! i).
Qed.

Lemma run_together events s : together s → together (App.run events s).
Proof.
  unfold App.run. revert s.
  induction events as [|e events IH]; intros s Hs; simpl; [done|].
  by apply IH, step_together.
Qed.

(** The selected code and the time series are set and cleared together,
    whatever happens: the chart is rendered exactly when a code is
    selected. *)
Theorem selection_and_series_together (events : list App.Event) :
  let s := App.run events App.initial in
  (useMunicipalityDetail.selectedCode (App.detail s) = None
   ↔ useMunicipalityDetail.timeSeries (App.detail s) = None)
  ∧ (is_Some (App.chartProps s)
     ↔ is_Some (useMunicipalityDetail.selectedCode (App.detail s))).
Proof.
  simpl. pose proof (run_together events App.initial ltac:(done)) as Hboth.
  split; [exact Hboth|].
  unfold App.chartProps. rewrite <- !not_eq_None_Some.
  unfold together in Hboth.
  destruct (useMunicipalityDetail.timeSeries
              (App.detail (App.run events App.initial))) eqn:Hts.
  - split; [|done]. intros _. rewrite Hboth. done.
  - split; [done|]. intros Hsel. destruct Hsel. by apply Hboth.
Qed.

(** Selecting the municipality that is selected already starts no
    real-estate request: whatever the time-series request comes back
    with, the real-estate data, its loading flag and its error stay as
    they are, so a real-estate load that failed is not tried again. *)
Theorem reselecting_starts_no_real_estate_fetch s (code : JS.String)
    (outcome : JS.Settled Population.MunicipalityTimeSeries) :
  useMunicipalityDetail.selectedCode (App.detail s) = Some code →
  App.realEstate (App.step s (App.TimeSeriesSettled code outcome))
  = App.realEstate s.
Proof.
  intros Hsel. unfold App.step, App.runEffects. simpl.
  destruct outcome; simpl; rewrite Hsel; by rewrite bool_decide_eq_true_2.
Qed.

(** When the time series of another municipality arrives, the chart
    gets the new population series together with the real-estate series
    that was loaded before, while the new real-estate request is only
    starting. *)
Theorem new_series_meets_previous_real_estate s (code : JS.String)
    (response : Population.MunicipalityTimeSeries) :
  code ≠ [] →
  useMunicipalityDetail.selectedCode (App.detail s) ≠ Some code →
  let s' := App.step s (App.TimeSeriesSettled code (JS.Resolved response)) in
  App.chartProps s'
  = Some (response, useRealEstate.realEstateData (App.realEstate s))
  ∧ useRealEstate.loading (App.realEstate s') = true.
Proof.
  intros Hcode Hsel. simpl. unfold App.step, App.runEffects, App.chartProps.
  simpl. rewrite bool_decide_eq_false_2 by congruence.
  destruct code as [|c cs]; [done|]. done.
Qed.

(** Once a real-estate request has failed, the chart that is open shows
    the population series alone: no joined record carries a real-estate
    field. *)
Theorem failed_real_estate_leaves_population_only s
    (ts : Population.MunicipalityTimeSeries) :
  useMunicipalityDetail.timeSeries (App.detail s) = Some ts →
  let s' := App.step s (App.RealEstateSettled JS.Rejected) in
  useRealEstate.realEstateData (App.realEstate s') = None
  ∧ useRealEstate.loading (App.realEstate s') = false
  ∧ useRealEstate.error (App.realEstate s') = Some RealEstateFailed
  ∧ App.chartProps s' = Some (ts, None)
  ∧ ∀ c, c ∈ CombinedChart.combinedData ts None →
      CombinedChart.avg_unit_price c = None
      ∧ CombinedChart.transaction_count c = None
      ∧ ∃ d, d ∈ Population.data ts
           ∧ CombinedChart.year c = Population.year d
           ∧ CombinedChart.population c = Some (Population.population d).
Proof.
  intros Hts. simpl.
  unfold App.step, App.runEffects, App.chartProps. simpl.
  rewrite Hts, bool_decide_eq_true_2 by done.
  repeat (split; [done|]).
  intros c Hc. exact (population_only_records ts None c eq_refl Hc).
Qed.

(** Closing the chart clears the selection, the series and the
    real-estate data, and selecting the same municipality afterwards
    starts a real-estate request again. *)
Theorem closing_then_reselecting_fetches_again s (code : JS.String)
    (response : Population.MunicipalityTimeSeries) :
  code ≠ [] →
  let closed := App.step s App.ChartClosed in
  App.chartProps closed = None
  ∧ useRealEstate.realEstateData (App.realEstate closed) = None
  ∧ useRealEstate.loading
      (App.realEstate
         (App.step closed (App.TimeSeriesSettled code (JS.Resolved response))))
    = true.
Proof.
  intros Hcode. simpl. unfold App.step, App.runEffects, App.chartProps. simpl.
  destruct code as [|c cs]; [done|].
  repeat case_bool_decide; done.
Qed.
End AppFacts.

(** ** Worked inputs for the further properties *)

Lemma combinedData_shared_year_witness :
  ∃ dp r dr,
    Some scenarioRealEstate = Some r
    ∧ list.last (filter (λ d, Population.year d = 2015)
                        (Population.data scenarioPopulation)) = Some dp
    ∧ list.last (filter (λ d, RealEstate.year d = 2015) (RealEstate.data r))
      = Some dr
    ∧ filter (λ c, CombinedChart.year c = 2015)
             (CombinedChart.combinedData scenarioPopulation (Some scenarioRealEstate))
      = [ {| CombinedChart.year := 2015;
             CombinedChart.population := Some (Population.population dp);
             CombinedChart.avg_unit_price := Some (RealEstate.avg_unit_price dr);
             CombinedChart.transaction_count :=
               Some (RealEstate.transaction_count dr) |} ].
Proof.
  apply (combinedData_shared_year scenarioPopulation (Some scenarioRealEstate) 2015).
  - left.
  - left.
Defined.

Lemma combinedData_population_only_witness :
  CombinedChart.avg_unit_price
    (populationOnly {| Population.year := 2020; Population.population := 95000 |})
  = None
  ∧ CombinedChart.transaction_count
      (populationOnly {| Population.year := 2020; Population.population := 95000 |})
    = None
  ∧ ∃ d, d ∈ Population.data scenarioPopulation
       ∧ CombinedChart.year
           (populationOnly {| Population.year := 2020; Population.population := 95000 |})
         = Population.year d
       ∧ CombinedChart.population
           (populationOnly {| Population.year := 2020; Population.population := 95000 |})
         = Some (Population.population d).
Proof.
  apply (combinedData_population_only scenarioPopulation None).
  - reflexivity.
  - right. left.
Defined.

Lemma combinedData_ascending_input_witness :
  CombinedChart.combinedData scenarioPopulation None
  = populationOnly <$> Population.data scenarioPopulation.
Proof.
  apply combinedData_ascending_input.
  - reflexivity.
  - repeat constructor.
Defined.

Lemma combinedChart_popDiffs_add_up_witness :
  CombinedChart.popChange scenarioPopulation
  = JS.Value (shownTotal (CombinedChart.popDiffs
                            (CombinedChart.combinedData scenarioPopulation None))).
Proof.
  apply combinedChart_popDiffs_add_up.
  - discriminate.
  - reflexivity.
  - repeat constructor.
  - repeat constructor; discriminate.
Defined.

Example combinedChart_popDiffs_zero_population :
  CombinedChart.popDiffs
    [ {| CombinedChart.year := 2010; CombinedChart.population := Some 0;
         CombinedChart.avg_unit_price := None;
         CombinedChart.transaction_count := None |};
      {| CombinedChart.year := 2015; CombinedChart.population := Some 700;
         CombinedChart.avg_unit_price := None;
         CombinedChart.transaction_count := None |};
      {| CombinedChart.year := 2018; CombinedChart.population := None;
         CombinedChart.avg_unit_price := Some 5;
         CombinedChart.transaction_count := Some 1 |};
      {| CombinedChart.year := 2020; CombinedChart.population := Some 650;
         CombinedChart.avg_unit_price := None;
         CombinedChart.transaction_count := None |} ]
  = [JS.Value None; JS.Value None; JS.Value None; JS.Value None].
Proof. reflexivity. Qed.

Lemma markers_have_table_coordinates_witness :
  Map.item <$> Map.markers [scenarioChiyoda; scenarioUnlisted]
  = filter (λ item, Population.mp_code item ∈ Map.MUNICIPALITY_COORDS.*1)
           [scenarioChiyoda; scenarioUnlisted]
  ∧ ∀ m, m ∈ Map.markers [scenarioChiyoda; scenarioUnlisted] →
      ∃ coords,
        (Population.mp_code (Map.item m), coords) ∈ Map.MUNICIPALITY_COORDS
        ∧ Map.position m = JS.Own coords.
Proof.
  apply (markers_have_table_coordinates [scenarioChiyoda; scenarioUnlisted]).
  repeat constructor; vm_compute; by intros [=].
Defined.

Example markers_scenario :
  Map.markers [scenarioChiyoda; scenarioUnlisted]
  = [ {| Map.item := scenarioChiyoda;
         Map.position := JS.Own {| Map.lat := 356940; Map.lng := 1397536 |};
         Map.color := JS.lit "#66bd63";
         Map.scale := 6 |} ].
Proof. vm_compute. reflexivity. Qed.

Lemma markers_inherited_name_witness :
  ∃ m, m ∈ Map.markers [scenarioUnlisted; scenarioInherited]
     ∧ Map.item m = scenarioInherited
     ∧ Map.position m = JS.Inherited (Population.mp_code scenarioInherited).
Proof.
  apply markers_inherited_name.
  - right. left.
  - left.
Defined.

Lemma marker_click_shows_info_witness :
  Map.infoWindowShown
    (Map.handleMarkerClick
       {| Map.item := scenarioChiyoda;
          Map.position := JS.Own {| Map.lat := 356940; Map.lng := 1397536 |};
          Map.color := JS.lit "#66bd63";
          Map.scale := 6 |})
  = true.
Proof.
  apply (marker_click_shows_info [scenarioChiyoda; scenarioUnlisted]).
  left.
Defined.

Lemma selected_year_is_listed_witness :
  2005 ∈ usePopulation.availableYears
           (App.population (App.run scenarioEvents App.initial)).
Proof.
  apply selected_year_is_listed.
  - vm_compute. lia.
  - reflexivity.
Defined.

Lemma reselecting_starts_no_real_estate_fetch_witness :
  App.realEstate
    (App.step scenarioChartOpen
       (App.TimeSeriesSettled (JS.lit "13101") (JS.Resolved scenarioPopulation)))
  = App.realEstate scenarioChartOpen.
Proof.
  apply reselecting_starts_no_real_estate_fetch. reflexivity.
Defined.

Lemma new_series_meets_previous_real_estate_witness :
  App.chartProps
    (App.step scenarioChartOpen
       (App.TimeSeriesSettled (JS.lit "27100") (JS.Resolved scenarioPopulation)))
  = Some (scenarioPopulation,
          useRealEstate.realEstateData (App.realEstate scenarioChartOpen))
  ∧ useRealEstate.loading
      (App.realEstate
         (App.step scenarioChartOpen
            (App.TimeSeriesSettled (JS.lit "27100") (JS.Resolved scenarioPopulation))))
    = true.
Proof.
  apply (new_series_meets_previous_real_estate scenarioChartOpen (JS.lit "27100")
           scenarioPopulation); discriminate.
Defined.

Lemma failed_real_estate_leaves_population_only_witness :
  useRealEstate.realEstateData
    (App.realEstate (App.step scenarioChartOpen (App.RealEstateSettled JS.Rejected)))
  = None
  ∧ useRealEstate.loading
      (App.realEstate (App.step scenarioChartOpen (App.RealEstateSettled JS.Rejected)))
    = false
  ∧ useRealEstate.error
      (App.realEstate (App.step scenarioChartOpen (App.RealEstateSettled JS.Rejected)))
    = Some RealEstateFailed
  ∧ App.chartProps (App.step scenarioChartOpen (App.RealEstateSettled JS.Rejected))
    = Some (scenarioPopulation, None)
  ∧ ∀ c, c ∈ CombinedChart.combinedData scenarioPopulation None →
      CombinedChart.avg_unit_price c = None
      ∧ CombinedChart.transaction_count c = None
      ∧ ∃ d, d ∈ Population.data scenarioPopulation
           ∧ CombinedChart.year c = Population.year d
           ∧ CombinedChart.population c = Some (Population.population d).
Proof.
  apply (failed_real_estate_leaves_population_only scenarioChartOpen scenarioPopulation).
  reflexivity.
Defined.

Lemma closing_then_reselecting_fetches_again_witness :
  App.chartProps (App.step scenarioChartOpen App.ChartClosed) = None
  ∧ useRealEstate.realEstateData
      (App.realEstate (App.step scenarioChartOpen App.ChartClosed)) = None
  ∧ useRealEstate.loading
      (App.realEstate
         (App.step (App.step scenarioChartOpen App.ChartClosed)
            (App.TimeSeriesSettled (JS.lit "13101") (JS.Resolved scenarioPopulation))))
    = true.
Proof.
  apply (closing_then_reselecting_fetches_again scenarioChartOpen (JS.lit "13101")
           scenarioPopulation).
  discriminate.
Defined.
